(** * Trivia API backend ([backend/flaskr/__init__.py]): model and properties

    A shallow embedding of the request handlers of the trivia question
    bank.  Python integers are unbounded, so they are [Z]; Python lists are
    [list]; text is [string]; the JSON values handed to [jsonify] are the
    inductive [json]; the relational store behind the ORM is an explicit
    [DB] value threaded through the handlers that write to it.  What the
    database decides on its own, whether a text matches an [ILIKE] pattern
    and whether an insert goes through and under which key, is a parameter
    of the handlers, [Storage].

    A handler finishes in one of three ways, [outcome]: it returns a
    value, it calls [abort(code)], or a Python exception escapes it. *)

From Stdlib Require Import ZArith String Ascii Bool List Lia.
From Stdlib Require Import DecimalString DecimalZ Permutation.
Import ListNotations.

Local Open Scope string_scope.
Local Open Scope Z_scope.

Set Implicit Arguments.

(* ================================================================= *)
(** ** JSON values and handler outcomes *)

(** The values the handlers pass to [jsonify].  A Python dict literal is
    an association list in the order the source writes its keys. *)
#[local] Set Warnings "-register-all".
Inductive json : Type :=
| JNull
| JBool (b : bool)
| JInt (z : Z)
| JStr (s : string)
| JList (l : list json)
| JDict (d : list (string * json)).
#[local] Set Warnings "register-all".

(** [d[key]] on an association list, [None] when the key is absent. *)
Fixpoint assoc_get (key : string) (d : list (string * json)) : option json :=
  match d with
  | [] => None
  | (k, v) :: d' => if (k =? key)%string then Some v else assoc_get key d'
  end.

(** The field [key] of a JSON object; [None] for an absent key and for a
    value that is not an object. *)
Definition field (key : string) (j : json) : option json :=
  match j with
  | JDict d => assoc_get key d
  | _ => None
  end.

(** The Python exceptions that can escape a handler of this file. *)
Inductive pyexn : Type :=
| IndexError      (* random.choice on an empty sequence *)
| KeyError        (* body['k'] with k absent *)
| AttributeError. (* None.get(...) *)

Inductive outcome (A : Type) : Type :=
| Return (a : A)
| Abort (code : Z)
| Unhandled (e : pyexn).

Arguments Return {A} a.
Arguments Abort {A} code.
Arguments Unhandled {A} e.

(* ================================================================= *)
(** ** The two entities and the store *)

(** Modelled from the spec: the [Question] entity of [models.py], which
    is not part of the sources at hand.  Five columns, [id] the generated
    primary key. *)
Record Question : Type := mkQuestion {
  q_id : Z;
  q_question : string;
  q_answer : string;
  q_category : Z;
  q_difficulty : Z
}.

(** Modelled from the spec: the [Category] entity of [models.py]. *)
Record Category : Type := mkCategory {
  c_id : Z;
  c_type : string
}.

(** Modelled from the spec: [Question.format()] of [models.py], the
    JSON object of the five columns. *)
Definition format (q : Question) : json :=
  JDict [ ("id", JInt (q_id q));
          ("question", JStr (q_question q));
          ("answer", JStr (q_answer q));
          ("category", JInt (q_category q));
          ("difficulty", JInt (q_difficulty q)) ].

(** The store: the rows of the two tables in the order a query returns
    them, and the state of the generator of [questions.id] (for a store
    that draws its keys from a sequence, the sequence's next value). *)
Record DB : Type := mkDB {
  questions : list Question;
  categories : list Category;
  next_id : Z
}.

(** [Question.query.all()] and [Category.query.all()]. *)
Definition Question_query_all (db : DB) : list Question := questions db.
Definition Category_query_all (db : DB) : list Category := categories db.

(** [Question.query.get(id)]: the row with that primary key, if any. *)
Definition Question_query_get (id : Z) (db : DB) : option Question :=
  find (fun q => q_id q =? id) (questions db).

(** [Category.query.get(id)]. *)
Definition Category_query_get (id : Z) (db : DB) : option Category :=
  find (fun c => c_id c =? id) (categories db).

(** [Question.query.filter_by(category=c).all()]. *)
Definition Question_query_filter_by_category (c : Z) (db : DB) : list Question :=
  filter (fun q => q_category q =? c) (questions db).

(** Modelled from the spec: [question.delete()] of [models.py], which
    issues [DELETE FROM questions WHERE id = ...] and commits. *)
Definition Question_delete (q : Question) (db : DB) : DB :=
  mkDB (filter (fun r => negb (q_id r =? q_id q)) (questions db))
       (categories db) (next_id db).

(** What the handlers use of the database beyond the rows of its tables;
    the database and [models.py] are not among the sources, so both
    operations are taken as they come.
    - [ilike_op pattern text] is the database's verdict on
      [text ILIKE pattern].
    - [insert_op question answer difficulty category db] is the attempt
      to store a new question in [db]: [Some id] with the primary key the
      database generated for the row, or [None] when the database raises (a
      value out of a column's range, a broken constraint); with it comes the
      state the key generator is left in. *)
Record Storage : Type := mkStorage {
  ilike_op : string -> string -> bool;
  insert_op : string -> string -> Z -> Z -> DB -> option Z * Z
}.

(** [Question.query.filter(condition).all()]. *)
Definition Question_query_filter (condition : Question -> bool) (db : DB)
    : list Question :=
  filter condition (questions db).

(** Modelled from the spec: [Question(...)] followed by [insert()] of
    [models.py].  When the database takes the row it is added after the
    existing rows and returned with its generated id, as the Python object
    carries its id after the commit; when the database raises ([None]) no
    row is stored. *)
Definition Question_insert (storage : Storage) (question answer : string)
    (difficulty category : Z) (db : DB) : option Question * DB :=
  let (generated, state) :=
    insert_op storage question answer difficulty category db in
  match generated with
  | Some id =>
      let q := mkQuestion id question answer category difficulty in
      (Some q, mkDB (questions db ++ [q]) (categories db) state)
  | None => (None, mkDB (questions db) (categories db) state)
  end.

(* ================================================================= *)
(** ** Requests *)

(** What a handler reads of the Flask request: the [page] query argument
    after [request.args.get('page', ..., type=int)] has tried to convert
    it ([None] when the argument is absent or is not an integer literal),
    and the value of [request.get_json()], [None] for JSON [null].  A
    request on which [get_json] itself answers (a body that is not JSON)
    does not reach the lines after it and has no value here; and the body
    types below hold the bodies whose fields have the types the handlers
    expect. *)
Record Request (B : Type) : Type := mkRequest {
  args_page : option Z;
  get_json : option B
}.

(** [request.args.get('page', default, type=int)]. *)
Definition args_get_page (B : Type) (default : Z) (request : Request B) : Z :=
  match args_page request with
  | Some p => p
  | None => default
  end.

(* ================================================================= *)
(** ** Python slicing *)

(** How Python places one bound of [l[start:stop]] (step 1) on a list of
    length [len]: a negative bound counts from the end, and both kinds are
    clipped to [0 .. len]. *)
Definition slice_bound (len i : Z) : Z :=
  if i <? 0 then Z.max 0 (i + len) else Z.min i len.

(** [l[start:stop]]. *)
Definition py_slice (A : Type) (l : list A) (start stop : Z) : list A :=
  let len := Z.of_nat (length l) in
  let lo := slice_bound len start in
  let hi := slice_bound len stop in
  firstn (Z.to_nat (hi - lo)) (skipn (Z.to_nat lo) l).

(* ================================================================= *)
(** ** Pagination *)

Definition QUESTIONS_PER_PAGE : Z := 10.

Definition paginate (B : Type) (request : Request B) (selection : list Question)
    : list json :=
  let page := args_get_page 1 request in
  let start := (page - 1) * QUESTIONS_PER_PAGE in
  let end_ := start + QUESTIONS_PER_PAGE in
  let questions := map format selection in
  let current_questions := py_slice questions start end_ in
  current_questions.

(* ================================================================= *)
(** ** SQL pattern matching: [column.ilike(pattern)] *)

(** ASCII case folding, the part of the database's case-insensitive
    comparison that does not depend on a locale. *)
Definition lower_ascii (c : ascii) : ascii :=
  let n := nat_of_ascii c in
  if ((65 <=? n) && (n <=? 90))%nat then ascii_of_nat (n + 32) else c.

Fixpoint lower (s : string) : string :=
  match s with
  | EmptyString => EmptyString
  | String c s' => String (lower_ascii c) (lower s')
  end.

(** SQL [LIKE] on ASCII text, where a character is one [ascii]: in the
    pattern [%] stands for any run of characters and [_] for any one
    character.  [backslash_escape] is the dialect: with
    it (PostgreSQL, MySQL) a backslash makes the next pattern character
    literal, without it (SQLite, standard SQL) a backslash is an ordinary
    character.  A pattern that ends in a lone escape character matches
    nothing here; the patterns of this file end in [%]. *)
Fixpoint like (backslash_escape : bool) (pattern : string) {struct pattern}
    : string -> bool :=
  match pattern with
  | EmptyString =>
      fun s => match s with EmptyString => true | String _ _ => false end
  | String p pattern' =>
      if backslash_escape && (p =? "\")%char then
        match pattern' with
        | EmptyString => fun _ => false
        | String c pattern'' =>
            fun s => match s with
                     | EmptyString => false
                     | String c' s' =>
                         (c =? c')%char && like backslash_escape pattern'' s'
                     end
        end
      else if (p =? "%")%char then
        fix any_run (s : string) : bool :=
          like backslash_escape pattern' s
          || match s with
             | EmptyString => false
             | String _ s' => any_run s'
             end
      else if (p =? "_")%char then
        fun s => match s with
                 | EmptyString => false
                 | String _ s' => like backslash_escape pattern' s'
                 end
      else
        fun s => match s with
                 | EmptyString => false
                 | String c' s' =>
                     (p =? c')%char && like backslash_escape pattern' s'
                 end
  end.

(** [ILIKE] on ASCII text: [LIKE] with both sides case-folded.  What a
    database does with letters outside ASCII depends on its encoding and
    locale and is not described by this function; the handlers take the
    database's own operator, [ilike_op]. *)
Definition ilike (backslash_escape : bool) (pattern text : string) : bool :=
  like backslash_escape (lower pattern) (lower text).

(** [Question.query.filter(Question.question.ilike(pattern)).all()]. *)
Definition Question_query_filter_ilike (backslash_escape : bool)
    (pattern : string) (db : DB) : list Question :=
  filter (fun q => ilike backslash_escape pattern (q_question q)) (questions db).

(** Plain substring test, and the case-insensitive one the description of
    the search speaks of; they are what [ilike] is compared with below. *)
Fixpoint is_substring (t s : string) : bool :=
  String.prefix t s
  || match s with
     | EmptyString => false
     | String _ s' => is_substring t s'
     end.

Definition contains_ci (text term : string) : bool :=
  is_substring (lower term) (lower text).

(** The characters that are not taken literally in a [LIKE] pattern under
    one dialect or the other. *)
Definition is_pattern_char (c : ascii) : bool :=
  ((c =? "%") || (c =? "_") || (c =? "\"))%char.

Fixpoint pattern_free (s : string) : bool :=
  match s with
  | EmptyString => true
  | String c s' => negb (is_pattern_char c) && pattern_free s'
  end.

(* ================================================================= *)
(** ** Request handlers *)

(** Reading the rows and deleting one never raise in this store, so the
    [except:] clause of [delete_question] has no run here; the one of the
    create branch of [post_question] runs when the insert raises. *)

Definition success_true : string * json := ("success", JBool true).

(** [GET /questions]. *)
Definition get_questions (B : Type) (db : DB) (request : Request B)
    : outcome json :=
  let all_questions := Question_query_all db in
  let total := length all_questions in
  let selection := paginate request all_questions in
  let categories_query := Category_query_all db in
  let categories := map (fun category => JStr (c_type category)) categories_query in
  if (length selection =? 0)%nat then Abort 404
  else Return (JDict [ success_true;
                       ("questions", JList selection);
                       ("total_questions", JInt (Z.of_nat total));
                       ("categories", JList categories) ]).

(** [DELETE /questions/<int:id>]. *)
Definition delete_question (db : DB) (id : Z) : outcome json * DB :=
  match Question_query_get id db with
  | None => (Abort 404, db)
  | Some question =>
      let db' := Question_delete question db in
      (Return (JDict [ success_true; ("deleted", JInt id) ]), db')
  end.

(** The JSON object posted to [/questions], by the keys the handler
    reads.  A field is [None] when its key is absent or its value is
    [null] (what [body.get(key)] gives in both cases); a present value has
    the type of its column. *)
Record PostBody : Type := mkPostBody {
  searchTerm : option string;
  question : option string;
  answer : option string;
  difficulty : option Z;
  category : option Z
}.

(** Python truth of [body.get('searchTerm')]: not [None], not empty. *)
Definition truthy (v : option string) : bool :=
  match v with
  | Some s => negb (s =? EmptyString)%string
  | None => false
  end.

(** [POST /questions]: search when the body has a search term, create
    otherwise.  [get_json request = None] is a request whose body is JSON
    [null], on which [body.get] raises.  In the create branch the insert is
    inside [try:], and an insert that raises ends in [abort(422)]. *)
Definition post_question (storage : Storage) (db : DB)
    (request : Request PostBody) : outcome json * DB :=
  match get_json request with
  | None => (Unhandled AttributeError, db)
  | Some body =>
      if truthy (searchTerm body) then
        let search_term := match searchTerm body with Some s => s | None => EmptyString end in
        let selection :=
          Question_query_filter
            (fun q => ilike_op storage ("%" ++ search_term ++ "%") (q_question q))
            db in
        if (length selection =? 0)%nat then (Abort 404, db)
        else
          let results := paginate request selection in
          (Return (JDict [ success_true;
                           ("questions", JList results);
                           ("total_questions", JInt (Z.of_nat (length results))) ]),
           db)
      else
        let new_question := question body in
        let new_answer := answer body in
        let new_difficulty := difficulty body in
        let new_category := category body in
        match new_question, new_answer, new_difficulty, new_category with
        | Some q, Some a, Some d, Some c =>
            match Question_insert storage q a d c db with
            | (Some question, db') =>
                let selection := Question_query_all db' in
                let current_questions := paginate request selection in
                (Return (JDict [ success_true;
                                 ("created", JInt (q_id question));
                                 ("question_created", JStr (q_question question));
                                 ("questions", JList current_questions);
                                 ("total_questions",
                                  JInt (Z.of_nat (length selection))) ]),
                 db')
            | (None, db') => (Abort 422, db')   (* except: abort(422) *)
            end
        | _, _, _, _ => (Abort 422, db)   (* one of them is None *)
        end
  end.

(** [GET /categories/<int:id>/questions]. *)
Definition get_questions_by_category (B : Type) (db : DB) (request : Request B)
    (id : Z) : outcome json :=
  match Category_query_get id db with
  | None => Abort 400
  | Some category =>
      let questions := Question_query_filter_by_category (c_id category) db in
      let question_paginated := paginate request questions in
      Return (JDict [ success_true;
                      ("questions", JList question_paginated);
                      ("total_questions", JInt (Z.of_nat (length questions)));
                      ("current_category", JStr (c_type category)) ])
  end.

(** The JSON object posted to [/quizzes], by the keys the handler reads:
    [previous_questions] is [None] when that key is absent, and
    [quiz_category_id] is [None] when [quiz_category] or its [id] is. *)
Record QuizBody : Type := mkQuizBody {
  previous_questions : option (list Z);
  quiz_category_id : option Z
}.

(** [x in l] for a list of integers. *)
Definition py_in (x : Z) (l : list Z) : bool := existsb (Z.eqb x) l.

(** [random.choice(seq)]: [IndexError] on an empty sequence, otherwise the
    element at an index below [len(seq)]; [rnd] is the random source. *)
Definition random_choice (A : Type) (rnd : nat) (seq : list A) : outcome A :=
  match seq with
  | [] => Unhandled IndexError
  | _ :: _ =>
      match nth_error seq (rnd mod length seq) with
      | Some x => Return x
      | None => Unhandled IndexError
      end
  end.

(** [POST /quizzes].  [get_json request = None] is a body for which
    [not body] holds (none, [null], or the empty object). *)
Definition post_random_quiz_question (rnd : nat) (db : DB)
    (request : Request QuizBody) : outcome json :=
  match get_json request with
  | None => Abort 400
  | Some body =>
      match previous_questions body with
      | None => Unhandled KeyError
      | Some previous_questions =>
          match quiz_category_id body with
          | None => Unhandled KeyError
          | Some quiz_category_id =>
              let questions :=
                if quiz_category_id =? 0 then Question_query_all db
                else Question_query_filter_by_category quiz_category_id db in
              let total := length questions in
              if (total =? length previous_questions)%nat
              then Return (JDict [ success_true ])
              else
                let new_list :=
                  filter (fun q => negb (py_in (q_id q) previous_questions))
                         questions in
                match random_choice rnd new_list with
                | Return question =>
                    Return (JDict [ success_true; ("question", format question) ])
                | Abort code => Abort code
                | Unhandled e => Unhandled e
                end
          end
      end
  end.

(* ================================================================= *)
(** ** Error handlers and the HTTP status *)

Definition error_envelope (code : Z) (message : string) : json :=
  JDict [ ("success", JBool false);
          ("error", JInt code);
          ("message", JStr message) ].

Definition not_found : json * Z := (error_envelope 404 "resource not found", 404).
Definition unprocessable : json * Z := (error_envelope 422 "unprocessable", 422).
Definition bad_request : json * Z := (error_envelope 400 "bad request", 400).

(** What the client receives: a JSON body with its status, or a response
    that is not one of the application's JSON bodies. *)
Inductive response : Type :=
| Json (body : json) (status : Z)
| Other (status : Z).

(** Flask's dispatch of a handler's outcome: a returned value is sent
    with status 200; an aborted code goes to the handler registered for it,
    and to the framework's own page when there is none; an exception that
    escapes becomes the framework's 500 page. *)
Definition respond (o : outcome json) : response :=
  match o with
  | Return j => Json j 200
  | Abort code =>
      if code =? 404 then let (j, s) := not_found in Json j s
      else if code =? 422 then let (j, s) := unprocessable in Json j s
      else if code =? 400 then let (j, s) := bad_request in Json j s
      else Other code
  | Unhandled _ => Other 500
  end.

Definition status_of (r : response) : Z :=
  match r with
  | Json _ s => s
  | Other s => s
  end.

(** The response is inside the error envelope of the three handlers. *)
Definition in_error_envelope (r : response) : bool :=
  match r with
  | Json j s =>
      match field "success" j, field "error" j with
      | Some (JBool false), Some (JInt c) =>
          (c =? s) && ((s =? 400) || (s =? 404) || (s =? 422))
      | _, _ => false
      end
  | Other _ => false
  end.

(* ================================================================= *)
(** ** Vocabulary of the statements *)

(** The page of a request, and the length the description of pagination
    gives for a page [p] of a list of length [L]. *)
Definition page_of (B : Type) (request : Request B) : Z := args_get_page 1 request.

Definition page_length (L p : Z) : Z := Z.min 10 (Z.max 0 (L - 10 * (p - 1))).

(** A store of twelve questions and requests for its pages, used to run
    the statements on concrete inputs. *)
Definition sample_question (i : Z) : Question :=
  mkQuestion i "What is the title?" "Trivia" 1 2.

Definition twelve_questions : list Question :=
  map sample_question [1; 2; 3; 4; 5; 6; 7; 8; 9; 10; 11; 12].

Definition many_questions (n : nat) : list Question :=
  map (fun i => sample_question (Z.of_nat i)) (seq 1 n).

Definition sample_db : DB :=
  mkDB twelve_questions [mkCategory 1 "Science"; mkCategory 2 "Art"] 13.

Definition page_request (B : Type) (p : Z) : Request B := mkRequest (Some p) None.

(** The candidate questions of a quiz request for category [cid]: all
    questions for 0, those of the category otherwise. *)
Definition quiz_candidates (cid : Z) (db : DB) : list Question :=
  if cid =? 0 then questions db
  else filter (fun q => q_category q =? cid) (questions db).

(** A well-formed quiz request. *)
Definition quiz_request (page : option Z) (previous : list Z) (cid : Z)
    : Request QuizBody :=
  mkRequest page (Some (mkQuizBody (Some previous) (Some cid))).

(** Search and create requests of [POST /questions]. *)
Definition search_request (page : option Z) (term : string) : Request PostBody :=
  mkRequest page (Some (mkPostBody (Some term) None None None None)).

Definition create_request (page : option Z) (q a : option string)
    (d c : option Z) : Request PostBody :=
  mkRequest page (Some (mkPostBody None q a d c)).

(* ================================================================= *)
(** ** Listing the categories *)

(** [d[k] = v] on a Python dict, kept as the list of its items in
    insertion order: the value of an existing key is replaced where it
    stands, a new key goes to the end. *)
Fixpoint dict_set (k : Z) (v : string) (d : list (Z * string)) : list (Z * string) :=
  match d with
  | [] => [(k, v)]
  | (k', v') :: d' =>
      if k' =? k then (k, v) :: d' else (k', v') :: dict_set k v d'
  end.

(** [d.get(k)] on such a dict. *)
Fixpoint dict_get (k : Z) (d : list (Z * string)) : option string :=
  match d with
  | [] => None
  | (k', v) :: d' => if k' =? k then Some v else dict_get k d'
  end.

(** [str(z)] for an integer: its decimal numeral, with a minus sign when
    negative.  [jsonify] writes the integer keys of a dict this way. *)
Definition py_str_int (z : Z) : string := NilZero.string_of_int (Z.to_int z).

(** The loop of [get_categories] that fills [cat_dict]. *)
Definition cat_dict_of (categories : list Category) : list (Z * string) :=
  fold_left (fun cat_dict category =>
               dict_set (c_id category) (c_type category) cat_dict)
            categories [].

(** [GET /categories]. *)
Definition get_categories (db : DB) : outcome json :=
  let categories := Category_query_all db in
  let cat_dict := cat_dict_of categories in
  if (length cat_dict =? 0)%nat then Abort 404
  else Return (JDict [ success_true;
                       ("categories",
                        JDict (map (fun kv => (py_str_int (fst kv), JStr (snd kv)))
                                   cat_dict)) ]).

(* ================================================================= *)
(** ** The routes *)

(** One request to the application, by the route it is dispatched to. *)
Inductive api_call : Type :=
| GET_categories
| GET_questions (page : option Z)
| DELETE_question (id : Z)
| POST_questions (request : Request PostBody)
| GET_category_questions (page : option Z) (id : Z)
| POST_quizzes (rnd : nat) (request : Request QuizBody).

(** The routing table of [create_app]: the handler of each route, run on
    the store, with the store it leaves. *)
Definition serve (storage : Storage) (db : DB) (call : api_call)
    : outcome json * DB :=
  match call with
  | GET_categories => (get_categories db, db)
  | GET_questions page => (get_questions db (mkRequest page (@None unit)), db)
  | DELETE_question id => delete_question db id
  | POST_questions request => post_question storage db request
  | GET_category_questions page id =>
      (get_questions_by_category db (mkRequest page (@None unit)) id, db)
  | POST_quizzes rnd request => (post_random_quiz_question rnd db request, db)
  end.

(** The requests that can change the store: a deletion, and a post that
    is not a search. *)
Definition is_write (call : api_call) : bool :=
  match call with
  | DELETE_question _ => true
  | POST_questions request =>
      match get_json request with
      | Some body => negb (truthy (searchTerm body))
      | None => false
      end
  | _ => false
  end.

(* ================================================================= *)
(** ** More vocabulary *)

(** The primary keys in use, and the invariant of the [questions] table:
    keys are unique and were all drawn from the sequence already. *)
Definition question_ids (db : DB) : list Z := map q_id (questions db).

Definition wf_db (db : DB) : Prop :=
  NoDup (question_ids db) /\ Forall (fun i => i < next_id db) (question_ids db).

(** The pages 1 to [n] of a selection, one after the other. *)
Definition pages_upto (n : nat) (selection : list Question) : list json :=
  concat (map (fun p => paginate (page_request unit (Z.of_nat p)) selection)
              (seq 1 n)).

(** The id of the question in a quiz response, when there is one. *)
Definition question_id (j : json) : option Z :=
  match field "question" j with
  | Some qj => match field "id" qj with
               | Some (JInt i) => Some i
               | _ => None
               end
  | None => None
  end.

(** A client playing a quiz: one call per random draw, the id of each
    question received appended to [previous_questions] for the next call,
    until a response carries no question.  The result is the ids asked, in
    order. *)
Fixpoint quiz_session (rnds : list nat) (db : DB) (cid : Z) (previous : list Z)
    : list Z :=
  match rnds with
  | [] => []
  | rnd :: rnds' =>
      match post_random_quiz_question rnd db (quiz_request None previous cid) with
      | Return j =>
          match question_id j with
          | Some i => i :: quiz_session rnds' db cid (previous ++ [i])
          | None => []
          end
      | _ => []
      end
  end.

(** A string of [n] percent signs. *)
Fixpoint percents (n : nat) : string :=
  match n with
  | O => EmptyString
  | S n' => String "%" (percents n')
  end.

(** Text made of ASCII characters only. *)
Fixpoint ascii_only (s : string) : bool :=
  match s with
  | EmptyString => true
  | String c s' => (nat_of_ascii c <? 128)%nat && ascii_only s'
  end.

(** The database's [ILIKE] is, on ASCII patterns and texts, the pattern
    matcher [ilike] of the given dialect. *)
Definition sql_ilike_on_ascii (op : string -> string -> bool)
    (backslash_escape : bool) : Prop :=
  forall pattern text,
    ascii_only pattern = true -> ascii_only text = true ->
    op pattern text = ilike backslash_escape pattern text.

(** A database to run the statements on: its keys come from a sequence,
    its integer columns hold 32 bits and an insert raises when a value does
    not fit, and its [ILIKE] is the pattern matcher. *)
Definition int4 (z : Z) : bool := (-2147483648 <=? z) && (z <=? 2147483647).

Definition sequence_storage (backslash_escape : bool) : Storage :=
  mkStorage (ilike backslash_escape)
    (fun question answer difficulty category db =>
       if int4 difficulty && int4 category
       then (Some (next_id db), next_id db + 1)
       else (None, next_id db + 1)).

(** A store whose questions alternate between two categories. *)
Definition categorised_question (i : Z) : Question :=
  mkQuestion i "Which one?" "This one" (1 + i mod 2) 3.

Definition mixed_db : DB :=
  mkDB (map categorised_question [1; 2; 3; 4; 5; 6; 7; 8])
       [mkCategory 1 "Science"; mkCategory 2 "Art"] 9.

(* ================================================================= *)
(** * Properties *)

(** ** Slices *)

Section Slices.
Variable A : Type.
Implicit Types (l : list A) (start stop n : Z).

Lemma slice_bound_range len i :
  0 <= len -> 0 <= slice_bound len i <= len.
Proof. unfold slice_bound; destruct (Z.ltb_spec i 0); lia. Qed.

(** A slice whose bounds are not negative is the usual window, cut off
    at the end of the list. *)
Lemma py_slice_from_start l start n :
  0 <= start -> 0 <= n ->
  py_slice l start (start + n)
  = firstn (Z.to_nat n) (skipn (Z.to_nat start) l).
Proof.
  intros Hs Hn. unfold py_slice, slice_bound.
  destruct (Z.ltb_spec start 0) as [|_]; [lia|].
  destruct (Z.ltb_spec (start + n) 0) as [|_]; [lia|].
  set (len := Z.of_nat (length l)).
  destruct (Z.le_gt_cases len start) as [Hout|Hin].
  - rewrite !skipn_all2 by (subst len; lia). now rewrite !firstn_nil.
  - rewrite (Z.min_l start len) by lia.
    destruct (Z.le_gt_cases (start + n) len) as [Hfit|Hcut].
    + rewrite Z.min_l by lia. do 2 f_equal. lia.
    + rewrite Z.min_r by lia.
      rewrite !firstn_all2; auto; rewrite length_skipn; subst len; lia.
Qed.

(** A slice whose two bounds are negative and reach no further back than
    the start of the list is the window counted from the end. *)
Lemma py_slice_from_end l start n :
  start < 0 -> 0 <= n -> start + n < 0 ->
  0 <= Z.of_nat (length l) + start ->
  py_slice l start (start + n)
  = firstn (Z.to_nat n) (skipn (Z.to_nat (Z.of_nat (length l) + start)) l).
Proof.
  intros Hs Hn He Hlen. unfold py_slice, slice_bound.
  destruct (Z.ltb_spec start 0) as [_|]; [|lia].
  destruct (Z.ltb_spec (start + n) 0) as [_|]; [|lia].
  rewrite !Z.max_r by lia. do 2 f_equal; lia.
Qed.

Lemma length_py_slice l start stop :
  Z.of_nat (length (py_slice l start stop))
  = Z.max 0 (slice_bound (Z.of_nat (length l)) stop
             - slice_bound (Z.of_nat (length l)) start).
Proof.
  unfold py_slice. rewrite length_firstn, length_skipn.
  pose proof (slice_bound_range start (Nat2Z.is_nonneg (length l))).
  pose proof (slice_bound_range stop (Nat2Z.is_nonneg (length l))).
  lia.
Qed.

Lemma py_slice_map (B : Type) (f : A -> B) l start stop :
  py_slice (map f l) start stop = map f (py_slice l start stop).
Proof.
  unfold py_slice. now rewrite length_map, skipn_map, firstn_map.
Qed.
End Slices.

(** ** Pagination *)

Lemma paginate_as_slice (B : Type) (request : Request B) selection :
  paginate request selection
  = map format (py_slice selection ((page_of request - 1) * 10)
                                   ((page_of request - 1) * 10 + 10)).
Proof. unfold paginate, page_of, QUESTIONS_PER_PAGE. apply py_slice_map. Qed.

Lemma length_paginate (B : Type) (request : Request B) selection :
  let L := Z.of_nat (length selection) in
  let p := page_of request in
  Z.of_nat (length (paginate request selection))
  = Z.max 0 (slice_bound L ((p - 1) * 10 + 10) - slice_bound L ((p - 1) * 10)).
Proof.
  intros L p. rewrite paginate_as_slice, length_map. apply length_py_slice.
Qed.

(** From page 1 on, the page is a window of ten items of the selection. *)
Lemma paginate_window (B : Type) (request : Request B) selection :
  1 <= page_of request ->
  paginate request selection
  = map format (firstn 10 (skipn (Z.to_nat (10 * (page_of request - 1))) selection)).
Proof.
  intros Hp. rewrite paginate_as_slice.
  rewrite py_slice_from_start by lia.
  replace ((page_of request - 1) * 10) with (10 * (page_of request - 1)) by lia.
  reflexivity.
Qed.

(** C1.  For a page number [p >= 1], [paginate] returns the formatted
    items of the contiguous sub-range of the selection that starts at offset
    [10*(p-1)]; its length is [min(10, max(0, L - 10*(p-1)))]; and it is the
    empty list when that offset is at or beyond the length [L].  (As a
    total function, [paginate] has a result for every input.) *)
Theorem paginate_page (B : Type) (request : Request B) (selection : list Question) :
  let p := page_of request in
  let L := Z.of_nat (length selection) in
  1 <= p ->
  paginate request selection
  = map format (firstn 10 (skipn (Z.to_nat (10 * (p - 1))) selection))
  /\ Z.of_nat (length (paginate request selection)) = page_length L p
  /\ (L <= 10 * (p - 1) -> paginate request selection = []).
Proof.
  intros p L Hp.
  pose proof (paginate_window request selection Hp) as Hsub. fold p in Hsub.
  split; [exact Hsub|]. split.
  - rewrite Hsub, length_map, length_firstn, length_skipn.
    unfold page_length. subst L. lia.
  - intros Hout. rewrite Hsub, skipn_all2 by (subst L; lia). reflexivity.
Qed.

Lemma paginate_page_witness :
  paginate (page_request unit 2) twelve_questions
  = map format (map sample_question [11; 12])
  /\ Z.of_nat (length (paginate (page_request unit 2) twelve_questions)) = 2
  /\ paginate (page_request unit 3) twelve_questions = [].
Proof.
  assert (P2 : 1 <= page_of (page_request unit 2)) by (vm_compute; discriminate).
  assert (P3 : 1 <= page_of (page_request unit 3)) by (vm_compute; discriminate).
  destruct (paginate_page (page_request unit 2) twelve_questions P2) as (H1 & H2 & _).
  destruct (paginate_page (page_request unit 3) twelve_questions P3) as (_ & _ & H3).
  split; [exact H1|]. split; [exact H2|].
  apply H3. vm_compute; discriminate.
Defined.

(** Page 0 asks for the slice [[-10:0]], which is empty whatever the list. *)
Lemma paginate_page_0 (B : Type) (request : Request B) selection :
  page_of request = 0 -> paginate request selection = [].
Proof.
  intros H0. apply length_zero_iff_nil, Nat2Z.inj.
  rewrite length_paginate, H0. simpl.
  unfold slice_bound; simpl. lia.
Qed.

(** C9, as the code has it.  For [p = 0] the slice is empty, so
    [GET /questions] answers 404 whatever the store holds.  For [p < 0] on a
    list of length [L >= 10*(1-p)] the bounds [(p-1)*10] and [p*10] count
    from the end of the list: the result is the ten formatted items that
    start at index [L + (p-1)*10].  For [p <= 0] the length of the result
    equals [min(10, max(0, L - 10*(p-1)))] in that second case and in no
    other: the formula gives the wrong length for [p = 0] and for a negative
    page on a shorter list. *)
Theorem paginate_nonpositive_page (B : Type) (db : DB) (request : Request B)
    (selection : list Question) :
  let p := page_of request in
  let L := Z.of_nat (length selection) in
  p <= 0 ->
  (p = 0 ->
     paginate request selection = []
     /\ get_questions db request = Abort 404
     /\ status_of (respond (get_questions db request)) = 404)
  /\ (p < 0 -> 10 * (1 - p) <= L ->
        paginate request selection
        = map format (firstn 10 (skipn (Z.to_nat (L + (p - 1) * 10)) selection))
        /\ length (paginate request selection) = 10%nat)
  /\ (Z.of_nat (length (paginate request selection)) = page_length L p
      <-> p < 0 /\ 10 * (1 - p) <= L).
Proof.
  intros p L Hp. split; [|split].
  - intros H0.
    assert (Hget : get_questions db request = Abort 404).
    { unfold get_questions. now rewrite (paginate_page_0 request _ H0). }
    split; [now apply paginate_page_0|]. split; [exact Hget|].
    now rewrite Hget.
  - intros Hneg Hlen.
    assert (Hsub : paginate request selection
                   = map format (firstn 10 (skipn (Z.to_nat (L + (p - 1) * 10))
                                                  selection))).
    { rewrite paginate_as_slice. fold p.
      rewrite py_slice_from_end by (subst L; lia). reflexivity. }
    split; [exact Hsub|].
    rewrite Hsub, length_map, length_firstn, length_skipn. subst L. lia.
  - rewrite length_paginate. fold p L.
    unfold page_length, slice_bound.
    destruct (Z.ltb_spec ((p - 1) * 10 + 10) 0);
      destruct (Z.ltb_spec ((p - 1) * 10) 0); subst L; lia.
Qed.

Lemma paginate_nonpositive_page_witness :
  (paginate (page_request unit 0) twelve_questions = []
   /\ get_questions sample_db (page_request unit 0) = Abort 404
   /\ status_of (respond (get_questions sample_db (page_request unit 0))) = 404)
  /\ paginate (page_request unit (-1)) (many_questions 25)
     = map format (map sample_question [6; 7; 8; 9; 10; 11; 12; 13; 14; 15])
  /\ Z.of_nat (length (paginate (page_request unit 0) twelve_questions))
     <> page_length 12 0.
Proof.
  assert (P0 : page_of (page_request unit 0) <= 0) by (vm_compute; discriminate).
  assert (P1 : page_of (page_request unit (-1)) <= 0) by (vm_compute; discriminate).
  destruct (paginate_nonpositive_page sample_db (page_request unit 0)
              twelve_questions P0) as (H0 & _ & Hlen).
  destruct (paginate_nonpositive_page sample_db (page_request unit (-1))
              (many_questions 25) P1) as (_ & Hend & _).
  split; [apply H0; reflexivity|]. split.
  - assert (N1 : page_of (page_request unit (-1)) < 0) by (vm_compute; reflexivity).
    assert (N2 : 10 * (1 - page_of (page_request unit (-1)))
                 <= Z.of_nat (length (many_questions 25)))
      by (vm_compute; discriminate).
    exact (proj1 (Hend N1 N2)).
  - intros Heq. apply Hlen in Heq. destruct Heq as [Hlt _].
    vm_compute in Hlt. discriminate.
Defined.

(** C9 as it is worded says the length formula does not describe the
    result for any [p <= 0]; on page [-1] of twenty-five questions the
    result has ten items, which is the length the formula gives. *)
Lemma paginate_negative_page_length :
  page_of (page_request unit (-1)) <= 0
  /\ Z.of_nat (length (paginate (page_request unit (-1)) (many_questions 25)))
     = page_length (Z.of_nat (length (many_questions 25)))
                   (page_of (page_request unit (-1)))
  /\ length (paginate (page_request unit (-1)) (many_questions 25)) = 10%nat.
Proof.
  split; [discriminate|]. split; reflexivity.
Qed.

(** ** Listing questions *)

Lemma length_eqb_0_nil (A : Type) (l : list A) :
  (length l =? 0)%nat = true <-> l = [].
Proof. rewrite Nat.eqb_eq. apply length_zero_iff_nil. Qed.

(** C8.  [GET /questions] fails, with 404, exactly when the paginated
    slice is empty; otherwise it succeeds, and [total_questions] is the
    number of stored questions, not of those on the page.  On a store of
    twelve questions page 1 carries the first ten with [total_questions]
    12, and page 2 the remaining two. *)
Theorem get_questions_pages (B : Type) (db : DB) (request : Request B) :
  let selection := paginate request (questions db) in
  let total := Z.of_nat (length (questions db)) in
  let ok (page : list json) : outcome json :=
    Return (JDict [ ("success", JBool true);
                    ("questions", JList page);
                    ("total_questions", JInt total);
                    ("categories", JList (map (fun c => JStr (c_type c))
                                              (categories db))) ]) in
  (selection = [] ->
     get_questions db request = Abort 404
     /\ status_of (respond (get_questions db request)) = 404)
  /\ (selection <> [] ->
        get_questions db request = ok selection
        /\ status_of (respond (get_questions db request)) = 200)
  /\ (length (questions db) = 12%nat ->
        (page_of request = 1 ->
           get_questions db request = ok (map format (firstn 10 (questions db)))
           /\ length (firstn 10 (questions db)) = 10%nat)
        /\ (page_of request = 2 ->
              get_questions db request = ok (map format (skipn 10 (questions db)))
              /\ length (skipn 10 (questions db)) = 2%nat)).
Proof.
  intros selection total ok.
  assert (Hempty : selection = [] -> get_questions db request = Abort 404).
  { intros E. unfold get_questions, Question_query_all. fold selection.
    now rewrite E. }
  assert (Hfull : selection <> [] -> get_questions db request = ok selection).
  { intros E. unfold get_questions, Question_query_all. fold selection.
    destruct (length selection =? 0)%nat eqn:Hlen; [|reflexivity].
    now apply length_eqb_0_nil in Hlen. }
  split; [|split].
  - intros E. split; [auto|]. now rewrite Hempty.
  - intros E. split; [auto|]. now rewrite Hfull.
  - intros H12. split; intros Hp.
    + pose proof (paginate_window request (questions db)) as Hsub.
      rewrite Hp in Hsub. specialize (Hsub ltac:(lia)).
      change (Z.to_nat (10 * (1 - 1))) with 0%nat in Hsub.
      change (skipn 0 (questions db)) with (questions db) in Hsub.
      assert (Hten : length (firstn 10 (questions db)) = 10%nat)
        by (rewrite length_firstn; lia).
      split; [|exact Hten].
      rewrite Hfull; subst selection; rewrite Hsub; [reflexivity|].
      intros E. apply (f_equal (@length _)) in E.
      rewrite length_map, Hten in E. discriminate.
    + pose proof (paginate_window request (questions db)) as Hsub.
      rewrite Hp in Hsub. specialize (Hsub ltac:(lia)).
      change (Z.to_nat (10 * (2 - 1))) with 10%nat in Hsub.
      assert (Htwo : length (skipn 10 (questions db)) = 2%nat)
        by (rewrite length_skipn; lia).
      assert (Hall : firstn 10 (skipn 10 (questions db)) = skipn 10 (questions db))
        by (apply firstn_all2; lia).
      rewrite Hall in Hsub.
      split; [|exact Htwo].
      rewrite Hfull; subst selection; rewrite Hsub; [reflexivity|].
      intros E. apply (f_equal (@length _)) in E.
      rewrite length_map, Htwo in E. discriminate.
Qed.

Lemma get_questions_pages_witness :
  get_questions sample_db (page_request unit 2)
  = Return (JDict [ ("success", JBool true);
                    ("questions", JList (map format (map sample_question [11; 12])));
                    ("total_questions", JInt 12);
                    ("categories", JList [JStr "Science"; JStr "Art"]) ])
  /\ get_questions sample_db (page_request unit 3) = Abort 404.
Proof.
  destruct (get_questions_pages sample_db (page_request unit 2)) as (_ & _ & H12).
  destruct (get_questions_pages sample_db (page_request unit 3)) as (H404 & _ & _).
  split.
  - exact (proj1 (proj2 (H12 eq_refl) eq_refl)).
  - exact (proj1 (H404 eq_refl)).
Defined.

(** ** Listing the questions of a category *)

Lemma find_none_iff (A : Type) (f : A -> bool) (l : list A) :
  find f l = None <-> forall x, In x l -> f x = false.
Proof.
  split; [apply find_none|].
  induction l as [|a l IH]; simpl; intros H; [reflexivity|].
  rewrite (H a) by now left. apply IH. intros x Hx. apply H. now right.
Qed.

(** C7.  [GET /categories/id/questions] answers with status 400, not 404,
    when no category has that id.  When one has, it succeeds: [questions]
    holds the formatted questions whose category is [id], cut to the
    requested page (the ten from offset [10*(p-1)] for a page [p >= 1]),
    [total_questions] is their number before pagination, and
    [current_category] the [type] of the category. *)
Theorem get_questions_by_category_spec (B : Type) (db : DB) (request : Request B)
    (id : Z) :
  let result := get_questions_by_category db request id in
  let selected := filter (fun q => q_category q =? id) (questions db) in
  let p := page_of request in
  ((forall c, In c (categories db) -> c_id c <> id) ->
     result = Abort 400
     /\ status_of (respond result) = 400
     /\ status_of (respond result) <> 404)
  /\ ((exists c, In c (categories db) /\ c_id c = id) ->
        exists category page,
          In category (categories db) /\ c_id category = id
          /\ page = map format (py_slice selected ((p - 1) * 10)
                                                  ((p - 1) * 10 + 10))
          /\ (1 <= p ->
              page = map format
                       (firstn 10 (skipn (Z.to_nat (10 * (p - 1))) selected)))
          /\ result
             = Return (JDict [ ("success", JBool true);
                               ("questions", JList page);
                               ("total_questions", JInt (Z.of_nat (length selected)));
                               ("current_category", JStr (c_type category)) ])
          /\ status_of (respond result) = 200).
Proof.
  intros result selected p. subst result. unfold get_questions_by_category.
  split.
  - intros Hnone.
    assert (E : Category_query_get id db = None).
    { apply find_none_iff. intros c Hc. apply Z.eqb_neq. now apply Hnone. }
    rewrite E. simpl. repeat split. discriminate.
  - intros (c & Hc & Hid).
    destruct (Category_query_get id db) as [category|] eqn:E.
    + apply find_some in E. destruct E as [Hin Heq]. apply Z.eqb_eq in Heq.
      exists category, (paginate request selected).
      unfold Question_query_filter_by_category.
      rewrite Heq. fold selected.
      split; [assumption|]. split; [reflexivity|].
      split; [apply paginate_as_slice|].
      split; [intros Hp; now apply paginate_window|].
      split; reflexivity.
    + exfalso. apply find_none_iff with (x := c) in E; [|exact Hc].
      apply Z.eqb_neq in E. contradiction.
Qed.

Lemma get_questions_by_category_spec_witness :
  get_questions_by_category mixed_db (page_request unit 1) 7 = Abort 400
  /\ get_questions_by_category mixed_db (page_request unit 1) 2
     = Return (JDict [ ("success", JBool true);
                       ("questions",
                        JList (map format (map categorised_question [1; 3; 5; 7])));
                       ("total_questions", JInt 4);
                       ("current_category", JStr "Art") ])
  /\ get_questions_by_category sample_db (page_request unit 2) 1
     = Return (JDict [ ("success", JBool true);
                       ("questions",
                        JList (map format (map sample_question [11; 12])));
                       ("total_questions", JInt 12);
                       ("current_category", JStr "Science") ]).
Proof.
  split; [|split].
  - apply (get_questions_by_category_spec mixed_db (page_request unit 1) 7).
    intros c [E|[E|[]]]; subst c; discriminate.
  - destruct (get_questions_by_category_spec mixed_db (page_request unit 1) 2)
      as [_ H].
    destruct H as (category & page & Hin & Hid & Hpage & _ & Hres & _).
    { exists (mkCategory 2 "Art"). split; [right; now left | reflexivity]. }
    rewrite Hres. subst page.
    destruct Hin as [<-|[<-|[]]]; [discriminate Hid | reflexivity].
  - destruct (get_questions_by_category_spec sample_db (page_request unit 2) 1)
      as [_ H].
    destruct H as (category & page & Hin & Hid & _ & Hpage & Hres & _).
    { exists (mkCategory 1 "Science"). split; [now left | reflexivity]. }
    rewrite Hres, Hpage by (vm_compute; discriminate).
    destruct Hin as [<-|[<-|[]]]; [reflexivity | discriminate Hid].
Defined.

(** ** Deleting a question *)

Lemma no_row_after_delete (q : Question) (db : DB) :
  Question_query_get (q_id q) (Question_delete q db) = None.
Proof.
  apply find_none_iff. simpl. intros r Hr.
  apply filter_In in Hr. destruct Hr as [_ Hr].
  now apply negb_true_iff in Hr.
Qed.

(** C5.  [DELETE /questions/id] answers 404 when no question has that
    id.  Otherwise it removes the question (the rows with that id go, the
    others stay as they were) and returns [{success: true, deleted: id}];
    so a second deletion of the same id, on the store the first one left,
    answers 404 after the first one's 200. *)
Theorem delete_question_spec (db : DB) (id : Z) :
  ((forall q, In q (questions db) -> q_id q <> id) ->
     delete_question db id = (Abort 404, db)
     /\ status_of (respond (fst (delete_question db id))) = 404)
  /\ ((exists q, In q (questions db) /\ q_id q = id) ->
        let db' := snd (delete_question db id) in
        fst (delete_question db id)
        = Return (JDict [ ("success", JBool true); ("deleted", JInt id) ])
        /\ status_of (respond (fst (delete_question db id))) = 200
        /\ questions db' = filter (fun r => negb (q_id r =? id)) (questions db)
        /\ (forall r, In r (questions db') <-> In r (questions db) /\ q_id r <> id)
        /\ categories db' = categories db
        /\ delete_question db' id = (Abort 404, db')
        /\ status_of (respond (fst (delete_question db' id))) = 404).
Proof.
  split.
  - intros Hnone. unfold delete_question.
    assert (E : Question_query_get id db = None).
    { apply find_none_iff. intros q Hq. apply Z.eqb_neq. now apply Hnone. }
    rewrite E. split; reflexivity.
  - intros (q0 & Hq0 & Hid0).
    destruct (Question_query_get id db) as [q|] eqn:E.
    + assert (Hdel : delete_question db id
                     = (Return (JDict [ ("success", JBool true); ("deleted", JInt id) ]),
                        Question_delete q db))
        by (unfold delete_question; now rewrite E).
      apply find_some in E. destruct E as [Hin Heq]. apply Z.eqb_eq in Heq.
      rewrite Hdel. cbn [fst snd]. cbv zeta.
      assert (Hagain : delete_question (Question_delete q db) id
                       = (Abort 404, Question_delete q db)).
      { unfold delete_question. rewrite <- Heq at 1.
        now rewrite no_row_after_delete. }
      rewrite Hagain. clear Hid0 Hq0. subst id. simpl.
      do 3 (split; [reflexivity|]).
      split.
      { intros r. rewrite filter_In, negb_true_iff, Z.eqb_neq. reflexivity. }
      split; [reflexivity|]. split; reflexivity.
    + exfalso. apply find_none_iff with (x := q0) in E; [|exact Hq0].
      apply Z.eqb_neq in E. contradiction.
Qed.

Lemma delete_question_spec_witness :
  delete_question sample_db 40 = (Abort 404, sample_db)
  /\ fst (delete_question sample_db 4)
     = Return (JDict [ ("success", JBool true); ("deleted", JInt 4) ])
  /\ questions (snd (delete_question sample_db 4))
     = map sample_question [1; 2; 3; 5; 6; 7; 8; 9; 10; 11; 12]
  /\ fst (delete_question (snd (delete_question sample_db 4)) 4) = Abort 404.
Proof.
  destruct (delete_question_spec sample_db 40) as [H404 _].
  destruct (delete_question_spec sample_db 4) as [_ H200].
  split.
  - apply H404. intros q Hq. unfold sample_db, twelve_questions in Hq.
    simpl in Hq.
    repeat (destruct Hq as [Hq|Hq]; [subst q; discriminate|]). destruct Hq.
  - assert (Hex : exists q, In q (questions sample_db) /\ q_id q = 4).
    { exists (sample_question 4). split; [|reflexivity].
      simpl. do 3 right. now left. }
    destruct (H200 Hex) as (Hret & _ & Hrows & _ & _ & Hagain & _).
    split; [exact Hret|]. split; [exact Hrows|].
    now rewrite Hagain.
Defined.

(** ** Creating a question *)

(** The create branch on a body with the four fields: what it does
    follows what the database does with the insert. *)
Lemma post_question_create_run storage db page body q a d c :
  truthy (searchTerm body) = false ->
  question body = Some q -> answer body = Some a ->
  difficulty body = Some d -> category body = Some c ->
  post_question storage db (mkRequest page (Some body))
  = match insert_op storage q a d c db with
    | (Some id, state) =>
        (Return (JDict [ ("success", JBool true);
                         ("created", JInt id);
                         ("question_created", JStr q);
                         ("questions",
                          JList (paginate (mkRequest page (Some body))
                                   (questions db ++ [mkQuestion id q a c d])));
                         ("total_questions",
                          JInt (Z.of_nat (length (questions db)) + 1)) ]),
         mkDB (questions db ++ [mkQuestion id q a c d]) (categories db) state)
    | (None, state) => (Abort 422, mkDB (questions db) (categories db) state)
    end.
Proof.
  intros Hcreate Hq Ha Hd Hc. unfold post_question, Question_insert.
  cbn [get_json]. rewrite Hcreate, Hq, Ha, Hd, Hc.
  destruct (insert_op storage q a d c db) as [[id|] state]; [|reflexivity].
  cbn [Question_query_all questions q_id q_question].
  rewrite length_app, Nat2Z.inj_add. reflexivity.
Qed.

(** C6.  A request to [POST /questions] without a non-empty [searchTerm]
    fails with 422 when one of [question], [answer], [difficulty],
    [category] is missing, and also when the four are there and the insert
    raises; nothing is stored then.  It succeeds only with the four present
    and the insert accepted, and then returns the id the database gave the
    new question, its text, the requested page of all questions with the
    new one last (the ten from offset [10*(p-1)] for a page [p >= 1]), and
    [total_questions], the number of stored questions with the new one
    counted. *)
Theorem post_question_create (storage : Storage) (db : DB)
    (page : option Z) (body : PostBody) :
  let request := mkRequest page (Some body) in
  let result := post_question storage db request in
  let p := page_of request in
  truthy (searchTerm body) = false ->
  ((question body = None \/ answer body = None
    \/ difficulty body = None \/ category body = None) ->
     result = (Abort 422, db)
     /\ status_of (respond (fst result)) = 422)
  /\ (forall q a d c,
        question body = Some q -> answer body = Some a ->
        difficulty body = Some d -> category body = Some c ->
        (forall state,
           insert_op storage q a d c db = (None, state) ->
           fst result = Abort 422
           /\ status_of (respond (fst result)) = 422
           /\ questions (snd result) = questions db
           /\ categories (snd result) = categories db)
        /\ (forall id state,
              insert_op storage q a d c db = (Some id, state) ->
              let all := (questions db ++ [mkQuestion id q a c d])%list in
              exists items,
                items = map format (py_slice all ((p - 1) * 10)
                                                 ((p - 1) * 10 + 10))
                /\ (1 <= p ->
                    items = map format
                              (firstn 10 (skipn (Z.to_nat (10 * (p - 1))) all)))
                /\ result
                   = (Return (JDict [ ("success", JBool true);
                                      ("created", JInt id);
                                      ("question_created", JStr q);
                                      ("questions", JList items);
                                      ("total_questions",
                                       JInt (Z.of_nat (length (questions db)) + 1)) ]),
                      mkDB all (categories db) state)
                /\ status_of (respond (fst result)) = 200))
  /\ (forall j,
        fst result = Return j ->
        exists q a d c id state,
          question body = Some q /\ answer body = Some a
          /\ difficulty body = Some d /\ category body = Some c
          /\ insert_op storage q a d c db = (Some id, state)).
Proof.
  intros request result p Hcreate. subst result request.
  split; [|split].
  - intros Hmiss. unfold post_question. cbn [get_json]. rewrite Hcreate.
    destruct (question body), (answer body), (difficulty body), (category body);
      try (split; reflexivity).
    destruct Hmiss as [H|[H|[H|H]]]; discriminate.
  - intros q a d c Hq Ha Hd Hc.
    rewrite (@post_question_create_run storage db page body q a d c
               Hcreate Hq Ha Hd Hc).
    split.
    + intros state E. rewrite E. repeat split.
    + intros id state E all. rewrite E.
      exists (paginate (mkRequest page (Some body)) all).
      split; [apply paginate_as_slice|].
      split; [intros Hp; now apply paginate_window|].
      split; reflexivity.
  - intros j.
    destruct (question body) as [q|] eqn:Hq;
      [|unfold post_question; cbn [get_json]; rewrite Hcreate, Hq; discriminate].
    destruct (answer body) as [a|] eqn:Ha;
      [|unfold post_question; cbn [get_json]; rewrite Hcreate, Hq, Ha; discriminate].
    destruct (difficulty body) as [d|] eqn:Hd;
      [|unfold post_question; cbn [get_json]; rewrite Hcreate, Hq, Ha, Hd;
        discriminate].
    destruct (category body) as [c|] eqn:Hc;
      [|unfold post_question; cbn [get_json]; rewrite Hcreate, Hq, Ha, Hd, Hc;
        discriminate].
    rewrite (@post_question_create_run storage db page body q a d c
               Hcreate Hq Ha Hd Hc).
    destruct (insert_op storage q a d c db) as [[id|] state] eqn:E;
      [|discriminate].
    intros _. exists q, a, d, c, id, state. auto.
Qed.

Lemma post_question_create_witness :
  post_question (sequence_storage true) sample_db
    (create_request (Some 2) (Some "Who?") None (Some 3) (Some 1))
  = (Abort 422, sample_db)
  /\ post_question (sequence_storage true) sample_db
       (create_request (Some 2) (Some "Who?") (Some "Me") (Some 3) (Some 1))
     = (Return (JDict [ ("success", JBool true);
                        ("created", JInt 13);
                        ("question_created", JStr "Who?");
                        ("questions",
                         JList (map format
                                  (map sample_question [11; 12]
                                   ++ [mkQuestion 13 "Who?" "Me" 1 3])));
                        ("total_questions", JInt 13) ]),
        mkDB (twelve_questions ++ [mkQuestion 13 "Who?" "Me" 1 3])
             (categories sample_db) 14)
  /\ fst (post_question (sequence_storage true) sample_db
            (create_request (Some 2) (Some "Who?") (Some "Me")
               (Some 2147483648) (Some 1)))
     = Abort 422
  /\ questions (snd (post_question (sequence_storage true) sample_db
                       (create_request (Some 2) (Some "Who?") (Some "Me")
                          (Some 2147483648) (Some 1))))
     = questions sample_db.
Proof.
  split; [|split].
  - apply (post_question_create (sequence_storage true) sample_db (Some 2)
             (mkPostBody None (Some "Who?") None (Some 3) (Some 1)) eq_refl).
    right; left; reflexivity.
  - destruct (post_question_create (sequence_storage true) sample_db (Some 2)
                (mkPostBody None (Some "Who?") (Some "Me") (Some 3) (Some 1))
                eq_refl) as (_ & Hrun & _).
    destruct (Hrun "Who?" "Me" 3 1 eq_refl eq_refl eq_refl eq_refl) as [_ Hok].
    destruct (Hok 13 14 eq_refl) as (items & _ & Hitems & Hres & _).
    unfold create_request. rewrite Hres, Hitems by (vm_compute; discriminate).
    reflexivity.
  - destruct (post_question_create (sequence_storage true) sample_db (Some 2)
                (mkPostBody None (Some "Who?") (Some "Me") (Some 2147483648)
                   (Some 1)) eq_refl) as (_ & Hrun & _).
    destruct (Hrun "Who?" "Me" 2147483648 1 eq_refl eq_refl eq_refl eq_refl)
      as [Hraise _].
    destruct (Hraise 14 eq_refl) as (Hres & _ & Hrows & _).
    split; [exact Hres | exact Hrows].
Defined.

(** ** The quiz *)

Lemma py_in_true (x : Z) (l : list Z) : py_in x l = true <-> In x l.
Proof.
  unfold py_in. rewrite existsb_exists. split.
  - intros (y & Hy & E). apply Z.eqb_eq in E. now subst y.
  - intros H. exists x. split; [exact H|apply Z.eqb_refl].
Qed.

Lemma py_in_false (x : Z) (l : list Z) : py_in x l = false <-> ~ In x l.
Proof.
  rewrite <- py_in_true. destruct (py_in x l); split; intros; congruence.
Qed.

Lemma random_choice_In (A : Type) (rnd : nat) (seq : list A) (x : A) :
  random_choice rnd seq = Return x -> In x seq.
Proof.
  unfold random_choice. destruct seq as [|a seq]; [discriminate|].
  destruct (nth_error (a :: seq) (rnd mod length (a :: seq))) eqn:E;
    [|discriminate].
  intros H. injection H as <-. eapply nth_error_In, E.
Qed.

(** On a sequence that is not empty [random.choice] returns an element. *)
Lemma random_choice_returns (A : Type) (rnd : nat) (seq : list A) :
  seq <> [] -> exists x, random_choice rnd seq = Return x.
Proof.
  intros Hne. unfold random_choice. destruct seq as [|a seq]; [congruence|].
  destruct (nth_error (a :: seq) (rnd mod length (a :: seq))) eqn:E;
    [eauto|].
  apply nth_error_None in E.
  pose proof (Nat.mod_upper_bound rnd (length (a :: seq))) as Hlt.
  simpl in *. lia.
Qed.

(** The handler, with the body of a well-formed request taken apart. *)
Lemma post_random_quiz_question_eq rnd db page previous cid :
  post_random_quiz_question rnd db (quiz_request page previous cid)
  = if (length (quiz_candidates cid db) =? length previous)%nat
    then Return (JDict [ ("success", JBool true) ])
    else match random_choice rnd
                 (filter (fun q => negb (py_in (q_id q) previous))
                         (quiz_candidates cid db)) with
         | Return question =>
             Return (JDict [ ("success", JBool true);
                             ("question", format question) ])
         | Abort code => Abort code
         | Unhandled e => Unhandled e
         end.
Proof. reflexivity. Qed.

(** C2.  Whenever the quiz operation returns a response with a
    [question], that question is a formatted candidate whose id is not in
    the submitted [previous_questions]; this for every category id, 0
    (all categories) included. *)
Theorem quiz_question_not_previous (rnd : nat) (db : DB) (page : option Z)
    (previous : list Z) (cid : Z) (j qj : json) :
  post_random_quiz_question rnd db (quiz_request page previous cid) = Return j ->
  field "question" j = Some qj ->
  exists q,
    In q (quiz_candidates cid db)
    /\ qj = format q
    /\ field "id" qj = Some (JInt (q_id q))
    /\ ~ In (q_id q) previous.
Proof.
  rewrite post_random_quiz_question_eq.
  destruct (length (quiz_candidates cid db) =? length previous)%nat.
  - intros H. injection H as <-. discriminate.
  - destruct (random_choice rnd _) as [q| |] eqn:E; try discriminate.
    intros H. injection H as <-. cbn. intros H. injection H as <-.
    apply random_choice_In, filter_In in E. destruct E as [Hin Hnot].
    exists q. repeat split; [exact Hin|].
    now apply py_in_false, negb_true_iff.
Qed.

Lemma quiz_question_not_previous_witness :
  exists q,
    In q (quiz_candidates 0 sample_db)
    /\ format (sample_question 12) = format q
    /\ field "id" (format (sample_question 12)) = Some (JInt (q_id q))
    /\ ~ In (q_id q) [1; 2; 3; 4; 5; 6; 7; 8; 9; 10; 11].
Proof.
  apply (quiz_question_not_previous 5 sample_db None
           [1; 2; 3; 4; 5; 6; 7; 8; 9; 10; 11] 0
           (j := JDict [ ("success", JBool true);
                         ("question", format (sample_question 12)) ]));
    reflexivity.
Defined.

(** C3.  When the candidates of the selected category are as many as the
    entries of [previous_questions], the quiz operation returns
    [{success: true}], an object without a [question] field. *)
Theorem quiz_exhausted (rnd : nat) (db : DB) (page : option Z)
    (previous : list Z) (cid : Z) :
  length (quiz_candidates cid db) = length previous ->
  post_random_quiz_question rnd db (quiz_request page previous cid)
  = Return (JDict [ ("success", JBool true) ])
  /\ field "question" (JDict [ ("success", JBool true) ]) = None
  /\ status_of (respond (post_random_quiz_question rnd db
                           (quiz_request page previous cid))) = 200.
Proof.
  intros Hlen. rewrite post_random_quiz_question_eq, Hlen, Nat.eqb_refl.
  repeat split.
Qed.

Lemma quiz_exhausted_witness :
  post_random_quiz_question 3 sample_db
    (quiz_request None [1; 2; 3; 4; 5; 6; 7; 8; 9; 10; 11; 12] 1)
  = Return (JDict [ ("success", JBool true) ]).
Proof.
  apply (quiz_exhausted 3 sample_db None [1; 2; 3; 4; 5; 6; 7; 8; 9; 10; 11; 12] 1).
  reflexivity.
Defined.

(** C10.  A quiz request in which every candidate's id is among
    [previous_questions] while the two counts differ makes the operation
    raise: [random.choice] gets an empty list, the [IndexError] escapes
    the handler, and the response is neither a success nor one of the
    400/404/422 envelopes. *)
Theorem quiz_unhandled_exception (rnd : nat) (db : DB) (page : option Z)
    (previous : list Z) (cid : Z) :
  (forall q, In q (quiz_candidates cid db) -> In (q_id q) previous) ->
  length (quiz_candidates cid db) <> length previous ->
  let result :=
    post_random_quiz_question rnd db (quiz_request page previous cid) in
  result = Unhandled IndexError
  /\ respond result = Other 500
  /\ in_error_envelope (respond result) = false.
Proof.
  intros Hall Hlen result. subst result.
  rewrite post_random_quiz_question_eq.
  apply Nat.eqb_neq in Hlen. rewrite Hlen.
  assert (E : filter (fun q => negb (py_in (q_id q) previous))
                     (quiz_candidates cid db) = []).
  { destruct (filter _ _) as [|q l] eqn:F; [reflexivity|].
    assert (Hq : In q (q :: l)) by now left.
    rewrite <- F in Hq. apply filter_In in Hq. destruct Hq as [Hin Hnot].
    apply negb_true_iff, py_in_false in Hnot. now apply Hall in Hin. }
  rewrite E. repeat split.
Qed.

Lemma quiz_unhandled_exception_witness :
  post_random_quiz_question 0 sample_db
    (quiz_request None [1; 2; 3; 4; 5; 6; 7; 8; 9; 10; 11; 12; 13] 0)
  = Unhandled IndexError.
Proof.
  apply (quiz_unhandled_exception 0 sample_db None
           [1; 2; 3; 4; 5; 6; 7; 8; 9; 10; 11; 12; 13] 0).
  - intros q Hq. simpl in Hq.
    repeat (destruct Hq as [Hq|Hq]; [subst q; simpl; tauto|]). destruct Hq.
  - vm_compute. discriminate.
Defined.

(** ** Searching: [ILIKE] against substring containment *)

Section Like.
Variable backslash_escape : bool.

Lemma like_literal_char c pat s :
  is_pattern_char c = false ->
  like backslash_escape (String c pat) s
  = match s with
    | EmptyString => false
    | String c' s' => (c =? c')%char && like backslash_escape pat s'
    end.
Proof.
  unfold is_pattern_char. intros H.
  apply orb_false_iff in H. destruct H as [H Hbs].
  apply orb_false_iff in H. destruct H as [Hpc Hus].
  simpl. rewrite Hbs, Hpc, Hus, andb_false_r. reflexivity.
Qed.

(** A run of literal characters at the head of a pattern consumes the
    same characters at the head of the text. *)
Lemma like_literal_prefix t rest s :
  pattern_free t = true ->
  like backslash_escape (t ++ rest) s = true
  <-> exists s', s = (t ++ s')%string /\ like backslash_escape rest s' = true.
Proof.
  revert s. induction t as [|c t IH]; intros s Hfree.
  - simpl. split; [eauto|]. now intros (s' & -> & H).
  - simpl in Hfree. apply andb_true_iff in Hfree. destruct Hfree as [Hc Hfree].
    apply negb_true_iff in Hc.
    change (String c t ++ rest)%string with (String c (t ++ rest)%string).
    rewrite like_literal_char by exact Hc. destruct s as [|c' s].
    + split; [discriminate|]. intros (s' & E & _). discriminate.
    + rewrite andb_true_iff, Ascii.eqb_eq, (IH s Hfree). split.
      * intros (-> & s' & -> & H). exists s'. now split.
      * intros (s' & E & H). simpl in E. injection E as -> ->. eauto.
Qed.

(** [%] at the head of a pattern skips any prefix of the text. *)
Lemma like_percent rest s :
  like backslash_escape (String "%" rest) s = true
  <-> exists pre post,
        s = (pre ++ post)%string /\ like backslash_escape rest post = true.
Proof.
  simpl. rewrite andb_false_r.
  induction s as [|c s IH].
  - rewrite orb_false_r. split.
    + intros H. exists EmptyString, EmptyString. now split.
    + intros (pre & post & E & H).
      destruct pre; [|discriminate]. simpl in E. now subst post.
  - rewrite orb_true_iff, IH. split.
    + intros [H|(pre & post & -> & H)].
      * exists EmptyString, (String c s). now split.
      * exists (String c pre), post. now split.
    + intros (pre & post & E & H). destruct pre as [|c' pre].
      * simpl in E. subst post. now left.
      * simpl in E. injection E as -> ->. right. eauto.
Qed.

Lemma like_percent_all s : like backslash_escape "%" s = true.
Proof.
  apply like_percent. exists s, EmptyString. split; [|reflexivity].
  induction s as [|c s IH]; simpl; congruence.
Qed.

(** The pattern [%t%] for a run [t] of literal characters matches the
    texts that have [t] somewhere inside. *)
Lemma like_infix t s :
  pattern_free t = true ->
  like backslash_escape ("%" ++ t ++ "%") s = true
  <-> exists pre post, s = (pre ++ t ++ post)%string.
Proof.
  intros Hfree.
  change ("%" ++ t ++ "%")%string with (String "%" (t ++ "%")%string).
  rewrite like_percent. split.
  - intros (pre & post & -> & H).
    apply like_literal_prefix in H; [|exact Hfree].
    destruct H as (s' & -> & _). eauto.
  - intros (pre & post & ->). exists pre, (t ++ post)%string.
    split; [reflexivity|].
    apply like_literal_prefix; [exact Hfree|]. exists post.
    split; [reflexivity|apply like_percent_all].
Qed.
End Like.

Lemma prefix_append t s :
  String.prefix t s = true <-> exists post, s = (t ++ post)%string.
Proof.
  revert s. induction t as [|c t IH]; intros s.
  - split; [intros _; now exists s|]. intros _. destruct s; reflexivity.
  - destruct s as [|c' s]; simpl.
    + split; [discriminate|]. intros (post & E). discriminate.
    + destruct (ascii_dec c c') as [->|Hne].
      * rewrite IH. split.
        -- intros (post & ->). eauto.
        -- intros (post & E). injection E as ->. eauto.
      * split; [discriminate|]. intros (post & E). injection E as -> _.
        congruence.
Qed.

Lemma is_substring_infix t s :
  is_substring t s = true <-> exists pre post, s = (pre ++ t ++ post)%string.
Proof.
  induction s as [|c s IH].
  - cbn [is_substring]. rewrite orb_false_r, prefix_append. split.
    + intros (post & E). exists EmptyString, post. exact E.
    + intros (pre & post & E). destruct pre; [|discriminate]. eauto.
  - cbn [is_substring]. rewrite orb_true_iff, prefix_append, IH. split.
    + intros [(post & E)|(pre & post & ->)].
      * exists EmptyString, post. exact E.
      * exists (String c pre), post. reflexivity.
    + intros (pre & post & E). destruct pre as [|c' pre].
      * left. eauto.
      * right. simpl in E. injection E as -> ->. eauto.
Qed.

Lemma lower_append a b : lower (a ++ b) = (lower a ++ lower b)%string.
Proof. induction a as [|c a IH]; simpl; congruence. Qed.

Lemma is_pattern_char_lower c :
  is_pattern_char (lower_ascii c) = is_pattern_char c.
Proof. destruct c as [[] [] [] [] [] [] [] []]; reflexivity. Qed.

Lemma pattern_free_lower t : pattern_free (lower t) = pattern_free t.
Proof.
  induction t as [|c t IH]; simpl; [reflexivity|].
  now rewrite is_pattern_char_lower, IH.
Qed.

(** For a term without pattern characters, [ILIKE '%term%'] is the
    case-insensitive substring test, under either dialect. *)
Lemma ilike_contains_ci backslash_escape term text :
  pattern_free term = true ->
  ilike backslash_escape ("%" ++ term ++ "%") text = contains_ci text term.
Proof.
  intros Hfree. unfold ilike, contains_ci.
  rewrite !lower_append. change (lower "%") with "%"%string.
  rewrite <- pattern_free_lower in Hfree.
  pose proof (@like_infix backslash_escape (lower term) (lower text) Hfree) as Hl.
  pose proof (is_substring_infix (lower term) (lower text)) as Hs.
  destruct (like _ _ _), (is_substring _ _); intuition congruence.
Qed.

(** ** Searching questions *)

Lemma ascii_only_append a b :
  ascii_only (a ++ b) = ascii_only a && ascii_only b.
Proof.
  induction a as [|c a IH]; simpl; [reflexivity|].
  now rewrite IH, andb_assoc.
Qed.

(** The search branch on a body with a non-empty term. *)
Lemma post_question_search_run storage db page body term :
  searchTerm body = Some term -> term <> EmptyString ->
  post_question storage db (mkRequest page (Some body))
  = let matches :=
      filter (fun q => ilike_op storage ("%" ++ term ++ "%") (q_question q))
             (questions db) in
    let results := paginate (mkRequest page (Some body)) matches in
    if (length matches =? 0)%nat then (Abort 404, db)
    else (Return (JDict [ ("success", JBool true);
                          ("questions", JList results);
                          ("total_questions", JInt (Z.of_nat (length results))) ]),
          db).
Proof.
  intros Hterm Hne. unfold post_question, Question_query_filter.
  cbn [get_json]. rewrite Hterm. cbn [truthy].
  apply String.eqb_neq in Hne. rewrite Hne. reflexivity.
Qed.

(** C4, as the code has it.  A request to [POST /questions] with a
    non-empty [searchTerm] fails with 404 exactly when no question text
    matches the pattern [%searchTerm%] under the database's [ILIKE];
    otherwise it succeeds with the requested page of the matching questions
    (the ten from offset [10*(p-1)] for a page [p >= 1]), and
    [total_questions] is the length of that page, not the number of
    matches.  Where the database's [ILIKE] is the SQL pattern matcher on
    ASCII text, an ASCII term without the pattern characters [%], [_] and
    backslash matches the ASCII question texts that contain it
    case-insensitively. *)
Theorem post_question_search (storage : Storage) (db : DB)
    (page : option Z) (body : PostBody) (term : string) :
  let request := mkRequest page (Some body) in
  let result := post_question storage db request in
  let p := page_of request in
  let matches :=
    filter (fun q => ilike_op storage ("%" ++ term ++ "%") (q_question q))
           (questions db) in
  searchTerm body = Some term ->
  term <> EmptyString ->
  (matches = [] ->
     result = (Abort 404, db)
     /\ status_of (respond (fst result)) = 404)
  /\ (matches <> [] ->
        exists items,
          items = map format (py_slice matches ((p - 1) * 10)
                                               ((p - 1) * 10 + 10))
          /\ (1 <= p ->
              items = map format
                        (firstn 10 (skipn (Z.to_nat (10 * (p - 1))) matches)))
          /\ result
             = (Return (JDict [ ("success", JBool true);
                                ("questions", JList items);
                                ("total_questions",
                                 JInt (Z.of_nat (length items))) ]),
                db)
          /\ status_of (respond (fst result)) = 200)
  /\ (forall backslash_escape,
        sql_ilike_on_ascii (ilike_op storage) backslash_escape ->
        ascii_only term = true ->
        pattern_free term = true ->
        forall q,
          In q (questions db) -> ascii_only (q_question q) = true ->
          (In q matches <-> contains_ci (q_question q) term = true)).
Proof.
  intros request result p matches Hterm Hne. subst result request.
  rewrite (@post_question_search_run storage db page body term Hterm Hne).
  cbv zeta. fold matches.
  split; [|split].
  - intros E. rewrite E. split; reflexivity.
  - intros E. destruct (length matches =? 0)%nat eqn:Hlen.
    { now apply length_eqb_0_nil in Hlen. }
    exists (paginate (mkRequest page (Some body)) matches).
    split; [apply paginate_as_slice|].
    split; [intros Hp; now apply paginate_window|].
    split; reflexivity.
  - intros backslash_escape Hsql Hascii Hfree q Hq Htext.
    subst matches. rewrite filter_In.
    rewrite Hsql; [| rewrite !ascii_only_append, Hascii; reflexivity | exact Htext].
    rewrite ilike_contains_ci by exact Hfree. tauto.
Qed.

Lemma post_question_search_witness :
  post_question (sequence_storage true) sample_db (search_request (Some 2) "TITLE")
  = (Return (JDict [ ("success", JBool true);
                     ("questions", JList (map format (map sample_question [11; 12])));
                     ("total_questions", JInt 2) ]),
     sample_db)
  /\ post_question (sequence_storage true) sample_db (search_request None "answer")
     = (Abort 404, sample_db)
  /\ (In (sample_question 3)
         (filter (fun q => ilike true "%TITLE%" (q_question q)) (questions sample_db))
      <-> contains_ci (q_question (sample_question 3)) "TITLE" = true).
Proof.
  assert (N1 : "TITLE"%string <> EmptyString) by discriminate.
  assert (N2 : "answer"%string <> EmptyString) by discriminate.
  destruct (post_question_search (sequence_storage true) sample_db (Some 2)
              (mkPostBody (Some "TITLE") None None None None) eq_refl N1)
    as (_ & Hok & Hsub).
  destruct (post_question_search (sequence_storage true) sample_db None
              (mkPostBody (Some "answer") None None None None) eq_refl N2)
    as (Hnone & _ & _).
  split; [|split].
  - destruct Hok as (items & _ & Hitems & Hres & _); [vm_compute; discriminate|].
    unfold search_request. rewrite Hres, Hitems by (vm_compute; discriminate).
    reflexivity.
  - apply Hnone. reflexivity.
  - apply (Hsub true).
    + intros pattern text _ _. reflexivity.
    + reflexivity.
    + reflexivity.
    + cbn. do 2 right. now left.
    + reflexivity.
Defined.

(** C4 as it is worded fails on a term made of a pattern character: no
    question text of the sample store contains an underscore, and the search
    for ["_"] succeeds all the same, under either dialect, since [_] stands
    for any one character. *)
Lemma post_question_search_underscore :
  existsb (fun q => contains_ci (q_question q) "_") (questions sample_db) = false
  /\ fst (post_question (sequence_storage true) sample_db (search_request None "_"))
     = Return (JDict [ ("success", JBool true);
                       ("questions",
                        JList (map format
                                 (map sample_question [1; 2; 3; 4; 5; 6; 7; 8; 9; 10])));
                       ("total_questions", JInt 10) ])
  /\ fst (post_question (sequence_storage false) sample_db (search_request None "_"))
     = fst (post_question (sequence_storage true) sample_db (search_request None "_"))
  /\ fst (post_question (sequence_storage true) sample_db (search_request None "_"))
     <> Abort 404
  /\ status_of (respond (fst (post_question (sequence_storage true) sample_db
                                (search_request None "_"))))
     = 200.
Proof.
  split; [|split; [|split; [|split]]]; try reflexivity. discriminate.
Qed.

(* ================================================================= *)
(** * Further properties of the handlers *)

(** ** Pagination on every page *)

Lemma slice_width len start n :
  0 <= len -> 0 <= n ->
  slice_bound len (start + n) - slice_bound len start <= n.
Proof.
  intros Hlen Hn. unfold slice_bound.
  destruct (Z.ltb_spec (start + n) 0), (Z.ltb_spec start 0); lia.
Qed.

(** A page is never longer than ten items nor than the selection. *)
Lemma paginate_at_most_ten_length (B : Type) (request : Request B)
    (selection : list Question) :
  (length (paginate request selection) <= 10)%nat
  /\ (length (paginate request selection) <= length selection)%nat.
Proof.
  pose proof (slice_width ((page_of request - 1) * 10) (n := 10)
                (Nat2Z.is_nonneg (length selection))) as Hw.
  pose proof (slice_bound_range ((page_of request - 1) * 10)
                (Nat2Z.is_nonneg (length selection))) as Hlo.
  pose proof (slice_bound_range ((page_of request - 1) * 10 + 10)
                (Nat2Z.is_nonneg (length selection))) as Hhi.
  split; apply Nat2Z.inj_le; rewrite length_paginate; cbv zeta; lia.
Qed.

(** X1.  Whatever the page, zero and negative ones included, a page has at
    most ten items, and they are the formatted questions of one contiguous
    window of the selection, in the order of the selection. *)
Theorem paginate_at_most_ten (B : Type) (request : Request B)
    (selection : list Question) :
  (length (paginate request selection) <= 10)%nat
  /\ exists lo n,
       (n <= 10)%nat
       /\ paginate request selection
          = map format (firstn n (skipn lo selection)).
Proof.
  pose proof (slice_width ((page_of request - 1) * 10) (n := 10)
                (Nat2Z.is_nonneg (length selection))) as Hw.
  split.
  - apply Nat2Z.inj_le. rewrite length_paginate. cbv zeta. lia.
  - rewrite paginate_as_slice. unfold py_slice.
    eexists _, _. split; [|reflexivity]. lia.
Qed.

Lemma firstn_plus (A : Type) (a b : nat) (l : list A) :
  firstn (a + b) l = (firstn a l ++ firstn b (skipn a l))%list.
Proof.
  revert l. induction a as [|a IH]; intros l; [reflexivity|].
  destruct l as [|x l]; simpl.
  - now rewrite firstn_nil.
  - now rewrite IH.
Qed.

Lemma pages_upto_firstn (n : nat) (selection : list Question) :
  pages_upto n selection = map format (firstn (10 * n) selection).
Proof.
  unfold pages_upto. induction n as [|n IH].
  - reflexivity.
  - rewrite seq_S, map_app, concat_app, IH. cbn [map concat].
    rewrite app_nil_r.
    assert (Hp : page_of (page_request unit (Z.of_nat (1 + n))) = Z.of_nat (1 + n))
      by reflexivity.
    rewrite paginate_window by (rewrite Hp; lia).
    rewrite Hp.
    replace (Z.to_nat (10 * (Z.of_nat (1 + n) - 1))) with (10 * n)%nat by lia.
    rewrite <- map_app, <- firstn_plus. f_equal. f_equal. lia.
Qed.

(** X2.  The pages 1 to [n] put end to end are the whole formatted
    selection, each question once and in order, as soon as [10*n] reaches
    the length of the selection. *)
Theorem pages_tile (n : nat) (selection : list Question) :
  (length selection <= 10 * n)%nat ->
  pages_upto n selection = map format selection.
Proof.
  intros Hn. rewrite pages_upto_firstn. now rewrite firstn_all2.
Qed.

Lemma pages_tile_witness :
  pages_upto 2 twelve_questions = map format twelve_questions.
Proof.
  apply (pages_tile 2 twelve_questions). apply Nat.leb_le. reflexivity.
Defined.

(** ** Listing the categories *)

Lemma dict_get_set k k' v d :
  dict_get k (dict_set k' v d) = if k' =? k then Some v else dict_get k d.
Proof.
  induction d as [|[k0 v0] d IH]; simpl.
  - reflexivity.
  - destruct (Z.eqb_spec k0 k') as [->|Hne]; simpl.
    + destruct (k' =? k); reflexivity.
    + rewrite IH. destruct (Z.eqb_spec k0 k) as [->|Hne'];
        destruct (Z.eqb_spec k' k) as [->|Hne'']; congruence.
Qed.

Lemma dict_set_not_nil k v d : dict_set k v d <> [].
Proof.
  destruct d as [|[k0 v0] d]; simpl; [discriminate|].
  destruct (k0 =? k); discriminate.
Qed.

Lemma find_snoc (A : Type) (f : A -> bool) (l : list A) (x : A) :
  find f (l ++ [x])
  = match find f l with
    | Some y => Some y
    | None => if f x then Some x else None
    end.
Proof.
  induction l as [|y l IH]; simpl; [reflexivity|].
  destruct (f y); [reflexivity|exact IH].
Qed.

(** After the loop a key holds the type of the last category with that
    id, and the keys of the dict it started from are kept otherwise. *)
Lemma dict_get_fold k (cs : list Category) d :
  dict_get k (fold_left (fun cat_dict category =>
                           dict_set (c_id category) (c_type category) cat_dict)
                        cs d)
  = match find (fun c => c_id c =? k) (rev cs) with
    | Some c => Some (c_type c)
    | None => dict_get k d
    end.
Proof.
  revert d. induction cs as [|c cs IH]; intros d; [reflexivity|].
  cbn [fold_left rev]. rewrite IH, dict_get_set, find_snoc.
  destruct (find _ (rev cs)); [reflexivity|].
  destruct (c_id c =? k); reflexivity.
Qed.

Lemma fold_dict_set_not_nil (cs : list Category) d :
  d <> [] ->
  fold_left (fun cat_dict category =>
               dict_set (c_id category) (c_type category) cat_dict) cs d <> [].
Proof.
  revert d. induction cs as [|c cs IH]; intros d Hd; [exact Hd|].
  cbn [fold_left]. apply IH, dict_set_not_nil.
Qed.

Lemma cat_dict_of_nil cs : cat_dict_of cs = [] <-> cs = [].
Proof.
  split; [|now intros ->].
  destruct cs as [|c cs]; [reflexivity|]. unfold cat_dict_of. cbn [fold_left].
  intros H. now apply fold_dict_set_not_nil in H; [|apply dict_set_not_nil].
Qed.

(** Distinct integers have distinct numerals. *)
Lemma py_str_int_inj z z' : py_str_int z = py_str_int z' -> z = z'.
Proof.
  unfold py_str_int. intros H.
  assert (Hnil : forall n, Z.to_int n <> Decimal.Pos Decimal.Nil
                           /\ Z.to_int n <> Decimal.Neg Decimal.Nil).
  { intros n. split; intros E; pose proof (DecimalZ.of_to n) as Hn;
      rewrite E in Hn; cbn in Hn; subst n; discriminate. }
  apply DecimalZ.to_int_inj.
  pose proof (NilZero.isi (Z.to_int z) (proj1 (Hnil z)) (proj2 (Hnil z))) as E1.
  pose proof (NilZero.isi (Z.to_int z') (proj1 (Hnil z')) (proj2 (Hnil z'))) as E2.
  rewrite H in E1. congruence.
Qed.

Lemma assoc_get_py_str_int k (d : list (Z * string)) :
  assoc_get (py_str_int k)
            (map (fun kv => (py_str_int (fst kv), JStr (snd kv))) d)
  = option_map JStr (dict_get k d).
Proof.
  induction d as [|[k0 v0] d IH]; simpl; [reflexivity|].
  destruct (Z.eqb_spec k0 k) as [->|Hne].
  - now rewrite String.eqb_refl.
  - destruct (String.eqb_spec (py_str_int k0) (py_str_int k)) as [E|_];
      [|exact IH].
    apply py_str_int_inj in E. contradiction.
Qed.

(** X3.  [GET /categories] answers 404 exactly when there is no category.
    Otherwise it succeeds, and its [categories] object maps the decimal
    numeral of an id to the type of the last category row with that id,
    and has no entry for an id no row has.  The ids it has no entry for are
    the ones for which the listing by category answers 400. *)
Theorem get_categories_spec (db : DB) :
  (categories db = [] ->
     get_categories db = Abort 404
     /\ status_of (respond (get_categories db)) = 404)
  /\ (categories db <> [] ->
        exists cats,
          get_categories db
          = Return (JDict [ ("success", JBool true); ("categories", cats) ])
          /\ (forall id,
                field (py_str_int id) cats
                = option_map (fun c => JStr (c_type c))
                    (find (fun c => c_id c =? id) (rev (categories db))))
          /\ (forall (B : Type) (request : Request B) id,
                field (py_str_int id) cats = None
                <-> get_questions_by_category db request id = Abort 400)).
Proof.
  unfold get_categories, Category_query_all. split.
  - intros E. rewrite E. split; reflexivity.
  - intros Hne.
    destruct (length (cat_dict_of (categories db)) =? 0)%nat eqn:Hlen.
    { apply length_eqb_0_nil, cat_dict_of_nil in Hlen. contradiction. }
    eexists. split; [reflexivity|].
    assert (Hget : forall id,
               field (py_str_int id)
                 (JDict (map (fun kv => (py_str_int (fst kv), JStr (snd kv)))
                             (cat_dict_of (categories db))))
               = option_map (fun c => JStr (c_type c))
                   (find (fun c => c_id c =? id) (rev (categories db)))).
    { intros id. cbn [field]. rewrite assoc_get_py_str_int.
      unfold cat_dict_of. rewrite dict_get_fold.
      destruct (find _ (rev (categories db))); reflexivity. }
    split; [exact Hget|].
    intros B request id. rewrite Hget. unfold get_questions_by_category,
      Category_query_get.
    assert (Hrev : find (fun c => c_id c =? id) (rev (categories db)) = None
                   <-> find (fun c => c_id c =? id) (categories db) = None).
    { rewrite !find_none_iff. split; intros H x Hx; apply H.
      - now apply -> in_rev.
      - now apply in_rev. }
    destruct (find _ (rev (categories db))) eqn:Er;
      destruct (find _ (categories db)) eqn:Ef; cbn [option_map].
    + split; discriminate.
    + exfalso. destruct Hrev as [_ H]. discriminate (H eq_refl).
    + exfalso. destruct Hrev as [H _]. discriminate (H eq_refl).
    + split; reflexivity.
Qed.

Lemma get_categories_spec_witness :
  get_categories (mkDB [] [] 1) = Abort 404
  /\ exists cats,
       get_categories sample_db
       = Return (JDict [ ("success", JBool true); ("categories", cats) ])
       /\ field (py_str_int 2) cats = Some (JStr "Art")
       /\ field (py_str_int 3) cats = None.
Proof.
  split.
  - apply (get_categories_spec (mkDB [] [] 1)). reflexivity.
  - destruct (get_categories_spec sample_db) as [_ H].
    destruct H as (cats & Hret & Hget & _); [discriminate|].
    exists cats. split; [exact Hret|]. split; rewrite Hget; reflexivity.
Defined.

(** ** What a page holds *)

Lemma In_window (A : Type) (x : A) (n lo : nat) (l : list A) :
  In x (firstn n (skipn lo l)) -> In x l.
Proof.
  intros H. rewrite <- (firstn_skipn lo l). apply in_or_app. right.
  rewrite <- (firstn_skipn n (skipn lo l)). apply in_or_app. now left.
Qed.

(** Every item of a page is the formatted form of a question of the
    selection. *)
Lemma paginate_items (B : Type) (request : Request B) selection item :
  In item (paginate request selection) ->
  exists q, In q selection /\ item = format q.
Proof.
  rewrite paginate_as_slice. unfold py_slice. intros H.
  apply in_map_iff in H. destruct H as (q & <- & Hq).
  exists q. split; [|reflexivity]. eapply In_window, Hq.
Qed.

(** X4.  Whenever the listing by category succeeds, its [questions] are at
    most ten, each the formatted form of a stored question whose category is
    the requested id, and [total_questions] counts the questions of that
    category: it is at least the number of items on the page and at most the
    number of stored questions. *)
Theorem category_page_items (B : Type) (db : DB) (request : Request B)
    (id : Z) (j : json) :
  get_questions_by_category db request id = Return j ->
  exists items total,
    field "questions" j = Some (JList items)
    /\ field "total_questions" j = Some (JInt (Z.of_nat total))
    /\ (length items <= 10)%nat
    /\ (length items <= total <= length (questions db))%nat
    /\ forall item,
         In item items ->
         exists q,
           In q (questions db) /\ q_category q = id
           /\ item = format q
           /\ field "category" item = Some (JInt id).
Proof.
  unfold get_questions_by_category, Category_query_get.
  destruct (find _ (categories db)) as [category|] eqn:E; [|discriminate].
  apply find_some in E. destruct E as [_ Hid]. apply Z.eqb_eq in Hid.
  rewrite Hid. unfold Question_query_filter_by_category.
  set (selected := filter (fun q => q_category q =? id) (questions db)).
  intros H. injection H as <-.
  exists (paginate request selected), (length selected).
  split; [reflexivity|]. split; [reflexivity|].
  destruct (paginate_at_most_ten_length request selected) as [Hten Hsel].
  split; [exact Hten|]. split.
  - split; [exact Hsel|]. apply filter_length_le.
  - intros item Hitem. apply paginate_items in Hitem.
    destruct Hitem as (q & Hq & ->). apply filter_In in Hq.
    destruct Hq as [Hin Hcat]. apply Z.eqb_eq in Hcat.
    exists q. repeat split; try assumption. cbn. now rewrite Hcat.
Qed.

Lemma category_page_items_witness :
  exists items total,
    field "questions"
      (JDict [ ("success", JBool true);
               ("questions", JList (map format (map sample_question [11; 12])));
               ("total_questions", JInt 12);
               ("current_category", JStr "Science") ])
    = Some (JList items)
    /\ field "total_questions"
         (JDict [ ("success", JBool true);
                  ("questions", JList (map format (map sample_question [11; 12])));
                  ("total_questions", JInt 12);
                  ("current_category", JStr "Science") ])
       = Some (JInt (Z.of_nat total))
    /\ (length items <= 10)%nat
    /\ (length items <= total <= length (questions sample_db))%nat
    /\ forall item,
         In item items ->
         exists q,
           In q (questions sample_db) /\ q_category q = 1
           /\ item = format q
           /\ field "category" item = Some (JInt 1).
Proof.
  apply (category_page_items sample_db (page_request unit 2) 1). reflexivity.
Defined.

(** ** The store across requests *)

Lemma wf_sample_db : wf_db sample_db.
Proof.
  split.
  - unfold question_ids. cbn.
    repeat (constructor; [cbn; intuition discriminate|]). constructor.
  - unfold question_ids. cbn. repeat (constructor; [reflexivity|]). constructor.
Defined.

(** X6.  A request leaves the questions and the categories as they were
    unless it is a deletion or a post without a search term, and also
    whenever it does not succeed, a create whose insert raises included: a
    request that ends in an error stores nothing.  The reads, the quiz and
    the search leave the whole store untouched (a search does not create a
    question even when the body carries the four fields). *)
Theorem serve_leaves_store (storage : Storage) (db : DB) (call : api_call) :
  is_write call = false
  \/ (forall j, fst (serve storage db call) <> Return j) ->
  questions (snd (serve storage db call)) = questions db
  /\ categories (snd (serve storage db call)) = categories db
  /\ (is_write call = false -> snd (serve storage db call) = db).
Proof.
  intros H.
  destruct call as [|page|id|request|page id|rnd request]; cbn [serve snd];
    try (repeat split; reflexivity).
  - destruct H as [H|H]; [discriminate|]. cbn [serve] in H.
    unfold delete_question in *.
    destruct (Question_query_get id db).
    + now contradiction (H _ eq_refl).
    + repeat split; reflexivity.
  - cbn [serve is_write] in H. cbn [is_write]. unfold post_question in *.
    destruct (get_json request) as [body|]; [|repeat split; reflexivity].
    destruct (truthy (searchTerm body)).
    + destruct (length _ =? 0)%nat; repeat split; reflexivity.
    + destruct H as [H|H]; [discriminate|].
      destruct (question body) as [q|], (answer body) as [a|],
        (difficulty body) as [d|], (category body) as [c|];
        try (repeat split; (reflexivity || discriminate)).
      unfold Question_insert in *.
      destruct (insert_op storage q a d c db) as [[i|] state].
      * now contradiction (H _ eq_refl).
      * repeat split; (reflexivity || discriminate).
Qed.

Lemma serve_leaves_store_witness :
  snd (serve (sequence_storage true) sample_db
         (POST_questions
            (mkRequest None
               (Some (mkPostBody (Some "title") (Some "Who?") (Some "Me")
                                 (Some 3) (Some 1))))))
  = sample_db
  /\ questions
       (snd (serve (sequence_storage true) sample_db
               (POST_questions
                  (create_request None (Some "Who?") (Some "Me")
                     (Some 2147483648) (Some 1)))))
     = questions sample_db
  /\ snd (serve (sequence_storage true) sample_db (DELETE_question 40))
     = sample_db.
Proof.
  split; [|split].
  - apply serve_leaves_store; [left|]; reflexivity.
  - apply serve_leaves_store. right. intros j. discriminate.
  - assert (H : forall j, fst (serve (sequence_storage true) sample_db
                                 (DELETE_question 40)) <> Return j)
      by (intros j; discriminate).
    destruct (serve_leaves_store (sequence_storage true) sample_db
                (DELETE_question 40) (or_intror H)) as (_ & _ & _).
    reflexivity.
Defined.

(** ** Creating, finding and deleting a question *)

Lemma find_filter_other (A : Type) (f g : A -> bool) (l : list A) :
  (forall x, f x = true -> g x = true) ->
  find f (filter g l) = find f l.
Proof.
  intros Hfg. induction l as [|x l IH]; simpl; [reflexivity|].
  destruct (g x) eqn:Hg; simpl.
  - now rewrite IH.
  - destruct (f x) eqn:Hf; [|exact IH]. apply Hfg in Hf. congruence.
Qed.

Lemma filter_all (A : Type) (f : A -> bool) (l : list A) :
  (forall x, In x l -> f x = true) -> filter f l = l.
Proof.
  induction l as [|x l IH]; simpl; intros H; [reflexivity|].
  rewrite (H x) by now left. f_equal. apply IH. intros y Hy. apply H. now right.
Qed.

(** A create that succeeds: the database took the row, gave it an id,
    and the store is the old one with that row at the end. *)
Lemma post_question_created storage db page q a d c j :
  fst (post_question storage db
         (create_request page (Some q) (Some a) (Some d) (Some c)))
  = Return j ->
  exists id state,
    insert_op storage q a d c db = (Some id, state)
    /\ field "created" j = Some (JInt id)
    /\ snd (post_question storage db
              (create_request page (Some q) (Some a) (Some d) (Some c)))
       = mkDB (questions db ++ [mkQuestion id q a c d]) (categories db) state.
Proof.
  unfold create_request.
  rewrite (@post_question_create_run storage db page
             (mkPostBody None (Some q) (Some a) (Some d) (Some c)) q a d c
             eq_refl eq_refl eq_refl eq_refl eq_refl).
  destruct (insert_op storage q a d c db) as [[id|] state]; [|discriminate].
  cbn [fst snd]. intros H. injection H as <-.
  exists id, state. repeat split.
Qed.

Lemma find_new_row (i : Z) (new : Question) (rows : list Question) :
  q_id new = i -> ~ In i (map q_id rows) ->
  find (fun r => q_id r =? i) (rows ++ [new]) = Some new.
Proof.
  intros Hid Hfresh. rewrite find_snoc, Hid, Z.eqb_refl.
  destruct (find _ rows) as [r|] eqn:E; [|reflexivity].
  apply find_some in E. destruct E as [Hr Hri]. apply Z.eqb_eq in Hri.
  exfalso. apply Hfresh. rewrite <- Hri. now apply in_map.
Qed.

(** X8.  After a create that succeeds, on a database that gives a new row
    a key not in use, looking up the id the response reports as [created]
    gives a row with exactly the four submitted fields, and the lookup of
    every other id gives what it gave before. *)
Theorem create_then_get (storage : Storage) (db : DB) (page : option Z)
    (q a : string) (d c : Z) (j : json) :
  let request := create_request page (Some q) (Some a) (Some d) (Some c) in
  let db' := snd (post_question storage db request) in
  fst (post_question storage db request) = Return j ->
  (forall id state, insert_op storage q a d c db = (Some id, state) ->
                    ~ In id (question_ids db)) ->
  exists i,
    field "created" j = Some (JInt i)
    /\ Question_query_get i db' = Some (mkQuestion i q a c d)
    /\ forall id, id <> i -> Question_query_get id db' = Question_query_get id db.
Proof.
  intros request db' Hok Hfresh. subst request db'.
  destruct (post_question_created _ _ _ _ _ _ _ Hok)
    as (i & state & Hins & Hcreated & ->).
  exists i. split; [exact Hcreated|].
  unfold Question_query_get. cbn [questions]. split.
  - apply find_new_row; [reflexivity|]. exact (Hfresh i state Hins).
  - intros id Hid. rewrite find_snoc. cbn [q_id].
    destruct (find _ (questions db)); [reflexivity|].
    destruct (Z.eqb_spec i id); congruence.
Qed.

Lemma sequence_storage_fresh esc q a d c :
  forall id state,
    insert_op (sequence_storage esc) q a d c sample_db = (Some id, state) ->
    ~ In id (question_ids sample_db).
Proof.
  intros id state E. cbn [insert_op sequence_storage] in E.
  destruct (int4 d && int4 c); [|discriminate].
  injection E as <- _. cbn. intuition discriminate.
Defined.

Lemma create_then_get_witness :
  exists i,
    field "created"
      (JDict [ ("success", JBool true);
               ("created", JInt 13);
               ("question_created", JStr "Who?");
               ("questions",
                JList (map format
                         (map sample_question [1; 2; 3; 4; 5; 6; 7; 8; 9; 10])));
               ("total_questions", JInt 13) ])
    = Some (JInt i)
    /\ Question_query_get i
         (snd (post_question (sequence_storage true) sample_db
                 (create_request None (Some "Who?") (Some "Me") (Some 3) (Some 1))))
       = Some (mkQuestion i "Who?" "Me" 1 3)
    /\ forall id, id <> i ->
         Question_query_get id
           (snd (post_question (sequence_storage true) sample_db
                   (create_request None (Some "Who?") (Some "Me") (Some 3) (Some 1))))
         = Question_query_get id sample_db.
Proof.
  exact (@create_then_get (sequence_storage true) sample_db None
           "Who?" "Me" 3 1 _ eq_refl
           (@sequence_storage_fresh true "Who?" "Me" 3 1)).
Defined.

(** X9.  Deleting the question that a successful create has just made, on
    a database that gave it a key not in use, succeeds and gives back the
    questions and the categories as they were before the create. *)
Theorem create_then_delete (storage : Storage) (db : DB) (page : option Z)
    (q a : string) (d c : Z) (j : json) :
  let request := create_request page (Some q) (Some a) (Some d) (Some c) in
  let db' := snd (post_question storage db request) in
  fst (post_question storage db request) = Return j ->
  (forall id state, insert_op storage q a d c db = (Some id, state) ->
                    ~ In id (question_ids db)) ->
  exists i,
    field "created" j = Some (JInt i)
    /\ fst (delete_question db' i)
       = Return (JDict [ ("success", JBool true); ("deleted", JInt i) ])
    /\ questions (snd (delete_question db' i)) = questions db
    /\ categories (snd (delete_question db' i)) = categories db.
Proof.
  intros request db' Hok Hfresh. subst request db'.
  destruct (post_question_created _ _ _ _ _ _ _ Hok)
    as (i & state & Hins & Hcreated & ->).
  pose proof (Hfresh i state Hins) as Hnew.
  exists i. split; [exact Hcreated|].
  unfold delete_question, Question_query_get. cbn [questions].
  rewrite (@find_new_row i (mkQuestion i q a c d) (questions db) eq_refl Hnew).
  cbn [fst snd Question_delete questions categories q_id].
  split; [reflexivity|]. split; [|reflexivity].
  rewrite filter_app. cbn [filter q_id]. rewrite Z.eqb_refl. cbn [negb].
  rewrite app_nil_r. apply filter_all. intros r Hr.
  apply negb_true_iff, Z.eqb_neq. intros E. apply Hnew.
  rewrite <- E. now apply in_map.
Qed.

Lemma create_then_delete_witness :
  exists i,
    field "created"
      (JDict [ ("success", JBool true);
               ("created", JInt 13);
               ("question_created", JStr "Who?");
               ("questions",
                JList (map format
                         (map sample_question [1; 2; 3; 4; 5; 6; 7; 8; 9; 10])));
               ("total_questions", JInt 13) ])
    = Some (JInt i)
    /\ fst (delete_question
              (snd (post_question (sequence_storage true) sample_db
                      (create_request None (Some "Who?") (Some "Me")
                         (Some 3) (Some 1))))
              i)
       = Return (JDict [ ("success", JBool true); ("deleted", JInt i) ])
    /\ questions
         (snd (delete_question
                 (snd (post_question (sequence_storage true) sample_db
                         (create_request None (Some "Who?") (Some "Me")
                            (Some 3) (Some 1))))
                 i))
       = questions sample_db
    /\ categories
         (snd (delete_question
                 (snd (post_question (sequence_storage true) sample_db
                         (create_request None (Some "Who?") (Some "Me")
                            (Some 3) (Some 1))))
                 i))
       = categories sample_db.
Proof.
  exact (@create_then_delete (sequence_storage true) sample_db None
           "Who?" "Me" 3 1 _ eq_refl
           (@sequence_storage_fresh true "Who?" "Me" 3 1)).
Defined.

(** X10.  A question whose create succeeded is the last item of the last
    page of the list of questions: with [n] questions stored before the
    create, page [n/10 + 1] of [GET /questions] succeeds afterwards and its
    [questions] end with the new question, after the old ones from index
    [10*(n/10)] on. *)
Theorem created_on_last_page (storage : Storage) (db : DB)
    (page : option Z) (q a : string) (d c : Z) (j : json) :
  let request := create_request page (Some q) (Some a) (Some d) (Some c) in
  let db' := snd (post_question storage db request) in
  let n := length (questions db) in
  fst (post_question storage db request) = Return j ->
  exists i,
    field "created" j = Some (JInt i)
    /\ get_questions db' (page_request unit (Z.of_nat n / 10 + 1))
       = Return (JDict [ ("success", JBool true);
                         ("questions",
                          JList (map format (skipn (10 * (n / 10)) (questions db))
                                 ++ [format (mkQuestion i q a c d)]));
                         ("total_questions", JInt (Z.of_nat n + 1));
                         ("categories",
                          JList (map (fun c => JStr (c_type c)) (categories db))) ]).
Proof.
  intros request db' n Hok. subst request db'.
  destruct (post_question_created _ _ _ _ _ _ _ Hok)
    as (i & state & Hins & Hcreated & ->).
  exists i. split; [exact Hcreated|].
  set (new := mkQuestion i q a c d).
  unfold get_questions, Question_query_all, Category_query_all.
  cbn [questions categories].
  assert (Hdiv : Z.of_nat n / 10 = Z.of_nat (n / 10)).
  { now rewrite Nat2Z.inj_div. }
  assert (Hpage : paginate (page_request unit (Z.of_nat n / 10 + 1))
                           (questions db ++ [new])
                  = (map format (skipn (10 * (n / 10)) (questions db))
                     ++ [format new])%list).
  { assert (Hp : page_of (page_request unit (Z.of_nat n / 10 + 1))
                 = Z.of_nat n / 10 + 1) by reflexivity.
    pose proof (Nat.div_mod_eq n 10) as Hdm.
    pose proof (Nat.mod_upper_bound n 10 ltac:(lia)) as Hmod.
    rewrite paginate_window by (rewrite Hp, Hdiv; lia).
    rewrite Hp, Hdiv.
    replace (Z.to_nat (10 * (Z.of_nat (n / 10) + 1 - 1))) with (10 * (n / 10))%nat
      by lia.
    rewrite skipn_app.
    replace (10 * (n / 10) - length (questions db))%nat with 0%nat
      by (fold n; lia).
    cbn [skipn]. rewrite firstn_all2.
    - now rewrite map_app.
    - rewrite length_app, length_skipn. fold n. cbn [length]. lia. }
  assert (Htotal : Z.of_nat (length (questions db ++ [new])) = Z.of_nat n + 1)
    by (rewrite length_app; cbn [length]; fold n; lia).
  rewrite Hpage, Htotal.
  destruct (length _ =? 0)%nat eqn:E; [|reflexivity].
  apply length_eqb_0_nil in E. now destruct (map format _).
Qed.

Lemma created_on_last_page_witness :
  exists i,
    field "created"
      (JDict [ ("success", JBool true);
               ("created", JInt 13);
               ("question_created", JStr "Who?");
               ("questions",
                JList (map format
                         (map sample_question [1; 2; 3; 4; 5; 6; 7; 8; 9; 10])));
               ("total_questions", JInt 13) ])
    = Some (JInt i)
    /\ get_questions
         (snd (post_question (sequence_storage true) sample_db
                 (create_request None (Some "Who?") (Some "Me") (Some 3) (Some 1))))
         (page_request unit 2)
       = Return (JDict [ ("success", JBool true);
                         ("questions",
                          JList (map format (map sample_question [11; 12])
                                 ++ [format (mkQuestion i "Who?" "Me" 1 3)]));
                         ("total_questions", JInt 13);
                         ("categories", JList [JStr "Science"; JStr "Art"]) ]).
Proof.
  exact (@created_on_last_page (sequence_storage true) sample_db None
           "Who?" "Me" 3 1 _ eq_refl).
Defined.

(** X11.  A question whose create succeeded is found by a search for any
    non-empty term that its text contains case-insensitively, when the text
    and the term are ASCII, the term has no pattern character, and the
    database's [ILIKE] is the SQL pattern matcher on ASCII text: the new
    question is among the rows the search selects, and the search answers
    with the requested page of those rows instead of 404. *)
Theorem create_then_search (storage : Storage) (backslash_escape : bool)
    (db : DB) (page page' : option Z) (q a term : string) (d c : Z) (j : json) :
  let request := create_request page (Some q) (Some a) (Some d) (Some c) in
  let db' := snd (post_question storage db request) in
  let found :=
    filter (fun r => ilike_op storage ("%" ++ term ++ "%") (q_question r))
           (questions db') in
  let p' := page_of (search_request page' term) in
  fst (post_question storage db request) = Return j ->
  sql_ilike_on_ascii (ilike_op storage) backslash_escape ->
  ascii_only q = true -> ascii_only term = true ->
  term <> EmptyString ->
  pattern_free term = true ->
  contains_ci q term = true ->
  exists i,
    field "created" j = Some (JInt i)
    /\ In (mkQuestion i q a c d) found
    /\ post_question storage db' (search_request page' term)
       = (Return (JDict [ ("success", JBool true);
                          ("questions",
                           JList (map format
                                    (py_slice found ((p' - 1) * 10)
                                                    ((p' - 1) * 10 + 10))));
                          ("total_questions",
                           JInt (Z.of_nat
                                   (length (py_slice found ((p' - 1) * 10)
                                                           ((p' - 1) * 10 + 10))))) ]),
          db').
Proof.
  intros request db' found p' Hok Hsql Hq Hterm Hne Hfree Hin.
  subst request db' found p'.
  destruct (post_question_created _ _ _ _ _ _ _ Hok)
    as (i & state & Hins & Hcreated & ->).
  exists i. split; [exact Hcreated|].
  set (new := mkQuestion i q a c d).
  set (db' := mkDB _ _ _).
  set (found := filter _ (questions db')).
  assert (Hfound : In new found).
  { subst found. apply filter_In. split.
    - subst db'. cbn [questions]. apply in_or_app. right. now left.
    - cbn [q_question new].
      rewrite Hsql; [| rewrite !ascii_only_append, Hterm; reflexivity | exact Hq].
      rewrite ilike_contains_ci by exact Hfree. exact Hin. }
  split; [exact Hfound|].
  unfold search_request at 1.
  rewrite (@post_question_search_run storage db' page'
             (mkPostBody (Some term) None None None None) term eq_refl Hne).
  cbv zeta. fold found.
  destruct (length found =? 0)%nat eqn:E.
  { apply length_eqb_0_nil in E. rewrite E in Hfound. destruct Hfound. }
  fold (search_request page' term).
  rewrite paginate_as_slice, length_map. reflexivity.
Qed.

Lemma create_then_search_witness :
  exists i,
    field "created"
      (JDict [ ("success", JBool true);
               ("created", JInt 13);
               ("question_created", JStr "Who wrote Hamlet?");
               ("questions",
                JList (map format
                         (map sample_question [1; 2; 3; 4; 5; 6; 7; 8; 9; 10])));
               ("total_questions", JInt 13) ])
    = Some (JInt i)
    /\ In (mkQuestion i "Who wrote Hamlet?" "Shakespeare" 2 3)
          (filter (fun r => ilike true "%HAMLET%" (q_question r))
             (questions
                (snd (post_question (sequence_storage true) sample_db
                        (create_request None (Some "Who wrote Hamlet?")
                           (Some "Shakespeare") (Some 3) (Some 2)))))).
Proof.
  assert (N : "HAMLET"%string <> EmptyString) by discriminate.
  assert (Hsql : sql_ilike_on_ascii (ilike_op (sequence_storage true)) true)
    by (intros pattern text _ _; reflexivity).
  destruct (@create_then_search (sequence_storage true) true sample_db None None
              "Who wrote Hamlet?" "Shakespeare" "HAMLET" 3 2 _
              eq_refl Hsql eq_refl eq_refl N eq_refl eq_refl)
    as (i & Hcreated & Hfound & _).
  exists i. split; [exact Hcreated | exact Hfound].
Defined.

(** X12.  On a store with unique ids, deleting the id of a stored question
    succeeds and removes that one row and nothing else: the rows before it
    and after it stay, in their order, and the lookup of every other id is
    unchanged. *)
Theorem delete_exactly_one (db : DB) (q : Question) :
  wf_db db ->
  In q (questions db) ->
  let db' := snd (delete_question db (q_id q)) in
  fst (delete_question db (q_id q))
  = Return (JDict [ ("success", JBool true); ("deleted", JInt (q_id q)) ])
  /\ (exists before after,
        questions db = (before ++ q :: after)%list
        /\ questions db' = (before ++ after)%list)
  /\ forall id, id <> q_id q ->
       Question_query_get id db' = Question_query_get id db.
Proof.
  intros [Hnd _] Hin db'. subst db'.
  destruct (Question_query_get (q_id q) db) as [r|] eqn:E.
  2:{ exfalso. apply find_none_iff with (x := q) in E; [|exact Hin].
      now rewrite Z.eqb_refl in E. }
  assert (Hdel : delete_question db (q_id q)
                 = (Return (JDict [ ("success", JBool true);
                                    ("deleted", JInt (q_id q)) ]),
                    Question_delete r db))
    by (unfold delete_question; now rewrite E).
  apply find_some in E. destruct E as [_ Hr]. apply Z.eqb_eq in Hr.
  rewrite Hdel. cbn [fst snd Question_delete questions]. rewrite Hr.
  split; [reflexivity|]. split.
  - destruct (in_split _ _ Hin) as (before & after & Hsplit).
    exists before, after. split; [exact Hsplit|].
    unfold question_ids in Hnd. rewrite Hsplit, map_app in Hnd. cbn [map] in Hnd.
    apply NoDup_remove_2 in Hnd.
    rewrite Hsplit, filter_app. cbn [filter]. rewrite Z.eqb_refl. cbn [negb].
    rewrite !filter_all; [reflexivity| |];
      intros x Hx; apply negb_true_iff, Z.eqb_neq; intros Ex; apply Hnd;
      rewrite <- Ex; apply in_or_app; [right|left]; now apply in_map.
  - intros id Hid. unfold Question_query_get. cbn [questions].
    apply find_filter_other. intros x Hx. apply Z.eqb_eq in Hx.
    apply negb_true_iff, Z.eqb_neq. congruence.
Qed.

Lemma delete_exactly_one_witness :
  exists before after,
    questions sample_db = (before ++ sample_question 4 :: after)%list
    /\ questions (snd (delete_question sample_db 4)) = (before ++ after)%list.
Proof.
  assert (H4 : In (sample_question 4) (questions sample_db))
    by (cbn; do 3 right; now left).
  exact (proj1 (proj2 (@delete_exactly_one sample_db (sample_question 4)
                         wf_sample_db H4))).
Defined.

(** ** The quiz, case by case *)

Lemma format_inj q q' : format q = format q' -> q = q'.
Proof.
  destruct q, q'. unfold format. cbn. intros H. injection H as -> -> -> -> ->.
  reflexivity.
Qed.

(** The questions left to ask. *)
Lemma unused_nil previous (candidates : list Question) :
  filter (fun q => negb (py_in (q_id q) previous)) candidates = []
  <-> forall q, In q candidates -> In (q_id q) previous.
Proof.
  split.
  - intros E q Hq. destruct (py_in (q_id q) previous) eqn:Hin.
    + now apply py_in_true.
    + assert (F : In q (filter (fun q => negb (py_in (q_id q) previous))
                               candidates))
        by (apply filter_In; split; [exact Hq | now rewrite Hin]).
      rewrite E in F. destruct F.
  - intros Hall. destruct (filter _ _) as [|q l] eqn:F; [reflexivity|].
    assert (Hq : In q (q :: l)) by now left.
    rewrite <- F in Hq. apply filter_In in Hq. destruct Hq as [Hin Hnot].
    apply negb_true_iff, py_in_false in Hnot. now apply Hall in Hin.
Qed.

(** X13.  On a well-formed quiz request the operation never aborts, and
    its three outcomes are told apart by the counts and by what is left to
    ask.  It answers [{success: true}] without a question exactly when the
    candidates are as many as the previous questions.  It answers with a
    question exactly when the counts differ and some candidate's id is not
    among the previous ones; the question is then a stored one, of the
    requested category unless that is 0.  It raises (the [IndexError] of
    [random.choice]) exactly when the counts differ and every candidate's id
    is among the previous ones. *)
Theorem quiz_outcomes (rnd : nat) (db : DB) (page : option Z)
    (previous : list Z) (cid : Z) :
  let result := post_random_quiz_question rnd db (quiz_request page previous cid) in
  let candidates := quiz_candidates cid db in
  let same := length candidates = length previous in
  let all_asked := forall q, In q candidates -> In (q_id q) previous in
  (forall code, result <> Abort code)
  /\ (result = Return (JDict [ ("success", JBool true) ]) <-> same)
  /\ ((exists q, result = Return (JDict [ ("success", JBool true);
                                          ("question", format q) ]))
      <-> ~ same /\ ~ all_asked)
  /\ (forall q, result = Return (JDict [ ("success", JBool true);
                                         ("question", format q) ]) ->
        In q (questions db) /\ (cid <> 0 -> q_category q = cid)
        /\ ~ In (q_id q) previous)
  /\ ((exists e, result = Unhandled e) <-> ~ same /\ all_asked)
  /\ (forall e, result = Unhandled e -> e = IndexError).
Proof.
  intros result candidates same all_asked. subst result same all_asked.
  rewrite post_random_quiz_question_eq. fold candidates.
  pose proof (unused_nil previous candidates) as Hnil.
  destruct (Nat.eqb_spec (length candidates) (length previous)) as [Heq|Hneq].
  { split; [discriminate|]. split; [tauto|]. split.
    - split; [intros (q & H); discriminate | tauto].
    - split; [discriminate|]. split; [|discriminate].
      split; [intros (e & H); discriminate | tauto]. }
  set (unused := filter (fun q => negb (py_in (q_id q) previous)) candidates) in *.
  destruct unused as [|q0 l] eqn:Hunused.
  - assert (Hall : forall q, In q candidates -> In (q_id q) previous)
      by now apply Hnil.
    cbn [random_choice].
    split; [discriminate|]. split; [split; [discriminate|contradiction]|].
    split; [split; [intros (q & H); discriminate | tauto]|].
    split; [discriminate|]. split.
    + split; [tauto | eauto].
    + intros e H. now injection H as <-.
  - assert (Hsome : ~ forall q, In q candidates -> In (q_id q) previous).
    { intros Hall. apply Hnil in Hall. discriminate. }
    destruct (@random_choice_returns _ rnd (q0 :: l)) as (q & Hq); [discriminate|].
    assert (Hin : In q (q0 :: l)) by (eapply random_choice_In, Hq).
    rewrite Hq.
    split; [discriminate|]. split; [split; [discriminate|contradiction]|].
    split; [split; [tauto | eauto]|].
    split.
    + intros q' H.
      assert (q' = q) by (apply format_inj; congruence).
      subst q'. rewrite <- Hunused in Hin. subst unused.
      apply filter_In in Hin. destruct Hin as [Hcand Hnot].
      apply negb_true_iff, py_in_false in Hnot.
      subst candidates. unfold quiz_candidates in Hcand.
      destruct (Z.eqb_spec cid 0) as [->|Hcid].
      * repeat split; [exact Hcand | congruence | exact Hnot].
      * apply filter_In in Hcand. destruct Hcand as [Hstored Hcat].
        apply Z.eqb_eq in Hcat. repeat split; auto.
    + split; [|discriminate].
      split; [intros (e & H); discriminate | tauto].
Qed.

(** ** The quiz as a client plays it *)

Lemma question_id_format q :
  question_id (JDict [ ("success", JBool true); ("question", format q) ])
  = Some (q_id q).
Proof. reflexivity. Qed.

(** One call of a client whose [previous_questions] are distinct ids of
    candidates, on candidates with distinct ids: either everything has been
    asked and the response says so, or a question not asked yet comes
    back. *)
Lemma quiz_fair_step rnd db page previous cid :
  let candidates := quiz_candidates cid db in
  let result := post_random_quiz_question rnd db (quiz_request page previous cid) in
  NoDup (map q_id candidates) ->
  NoDup previous ->
  incl previous (map q_id candidates) ->
  (length candidates = length previous
   /\ result = Return (JDict [ ("success", JBool true) ])
   /\ Permutation previous (map q_id candidates))
  \/ (length previous < length candidates)%nat
     /\ exists q,
          In q candidates /\ ~ In (q_id q) previous
          /\ result = Return (JDict [ ("success", JBool true);
                                      ("question", format q) ]).
Proof.
  intros candidates result Hids Hprev Hincl. subst result.
  rewrite post_random_quiz_question_eq. fold candidates.
  pose proof (NoDup_incl_length Hprev Hincl) as Hle. rewrite length_map in Hle.
  destruct (Nat.eqb_spec (length candidates) (length previous)) as [Heq|Hneq].
  - left. split; [exact Heq|]. split; [reflexivity|].
    apply NoDup_Permutation_bis; [exact Hprev | rewrite length_map; lia | exact Hincl].
  - right. split; [lia|].
    destruct (filter (fun q => negb (py_in (q_id q) previous)) candidates)
      as [|q0 l] eqn:Hunused.
    + exfalso. pose proof (proj1 (unused_nil _ _) Hunused) as Hall.
      assert (Hback : incl (map q_id candidates) previous).
      { intros i Hi. apply in_map_iff in Hi. destruct Hi as (q & <- & Hq). auto. }
      pose proof (NoDup_incl_length Hids Hback) as Hge.
      rewrite length_map in Hge. lia.
    + destruct (@random_choice_returns _ rnd (q0 :: l)) as (q & Hq); [discriminate|].
      assert (Hin : In q (q0 :: l)) by (eapply random_choice_In, Hq).
      rewrite <- Hunused in Hin. apply filter_In in Hin.
      destruct Hin as [Hcand Hnot]. apply negb_true_iff, py_in_false in Hnot.
      exists q. rewrite Hq. auto.
Qed.

(** X14.  For a client that sends distinct ids of candidate questions as
    [previous_questions], on a store with distinct ids, the quiz never
    raises: it reports the end exactly when every candidate has been asked
    (the previous ids are then the candidates' ids, in some order), and
    otherwise returns a candidate that has not been asked. *)
Theorem quiz_fair_client (rnd : nat) (db : DB) (page : option Z)
    (previous : list Z) (cid : Z) :
  let candidates := quiz_candidates cid db in
  let result := post_random_quiz_question rnd db (quiz_request page previous cid) in
  NoDup (map q_id candidates) ->
  NoDup previous ->
  incl previous (map q_id candidates) ->
  (forall e, result <> Unhandled e)
  /\ (result = Return (JDict [ ("success", JBool true) ])
      <-> Permutation previous (map q_id candidates))
  /\ (~ Permutation previous (map q_id candidates) ->
        exists q, In q candidates /\ ~ In (q_id q) previous
                  /\ result = Return (JDict [ ("success", JBool true);
                                              ("question", format q) ])).
Proof.
  intros candidates result Hids Hprev Hincl. subst candidates result.
  destruct (@quiz_fair_step rnd db page previous cid Hids Hprev Hincl)
    as [(Hlen & Hres & Hperm)|(Hlt & q & Hcand & Hnot & Hres)];
    rewrite Hres.
  - split; [discriminate|]. split; [tauto|]. intros H. contradiction.
  - assert (Hnp : ~ Permutation previous (map q_id (quiz_candidates cid db))).
    { intros Hp. apply Permutation_length in Hp. rewrite length_map in Hp. lia. }
    split; [discriminate|]. split; [split; [discriminate|contradiction]|].
    intros _. exists q. auto.
Qed.

Lemma quiz_fair_client_witness :
  post_random_quiz_question 7 sample_db (quiz_request None [3; 1; 12] 0)
  <> Unhandled IndexError.
Proof.
  assert (Hids : NoDup (map q_id (quiz_candidates 0 sample_db)))
    by apply wf_sample_db.
  assert (Hprev : NoDup [3; 1; 12]).
  { repeat (constructor; [cbn; intuition discriminate|]). constructor. }
  assert (Hincl : incl [3; 1; 12] (map q_id (quiz_candidates 0 sample_db))).
  { intros i Hi. cbn in Hi. cbn. intuition auto. }
  exact (proj1 (@quiz_fair_client 7 sample_db None [3; 1; 12] 0 Hids Hprev Hincl)
               IndexError).
Defined.

Lemma quiz_session_from rnds db cid previous :
  let ids := map q_id (quiz_candidates cid db) in
  NoDup ids -> NoDup previous -> incl previous ids ->
  (length ids <= length previous + length rnds)%nat ->
  Permutation (previous ++ quiz_session rnds db cid previous) ids.
Proof.
  intros ids Hids. revert previous.
  induction rnds as [|rnd rnds IH]; intros previous Hprev Hincl Hlen.
  - cbn [quiz_session]. rewrite app_nil_r.
    apply NoDup_Permutation_bis; [exact Hprev | cbn [length] in Hlen; lia | exact Hincl].
  - cbn [quiz_session].
    destruct (@quiz_fair_step rnd db None previous cid Hids Hprev Hincl)
      as [(_ & Hres & Hperm)|(Hlt & q & Hcand & Hnot & Hres)]; rewrite Hres.
    + cbn. now rewrite app_nil_r.
    + rewrite question_id_format.
      change (previous ++ q_id q :: quiz_session rnds db cid (previous ++ [q_id q]))%list
        with (previous ++ [q_id q] ++ quiz_session rnds db cid (previous ++ [q_id q]))%list.
      rewrite app_assoc. apply IH.
      * apply NoDup_app; [exact Hprev | constructor; [intros []|constructor] |].
        intros i Hi [<-|[]]. contradiction.
      * intros i Hi. apply in_app_or in Hi. destruct Hi as [Hi|[<-|[]]];
          [now apply Hincl | now apply in_map].
      * rewrite length_app. cbn [length] in *. lia.
Qed.

(** X15.  A quiz played to the end asks every candidate exactly once.  A
    client that starts with no previous question and adds the id of each
    question it receives to the next request gets, on a store with distinct
    ids and given at least as many calls as there are candidates, the ids of
    all the candidates, each once, in the order the random draws decide. *)
Theorem quiz_session_complete (rnds : list nat) (db : DB) (cid : Z) :
  NoDup (map q_id (quiz_candidates cid db)) ->
  (length (quiz_candidates cid db) <= length rnds)%nat ->
  Permutation (quiz_session rnds db cid []) (map q_id (quiz_candidates cid db))
  /\ NoDup (quiz_session rnds db cid []).
Proof.
  intros Hids Hlen.
  assert (Hperm : Permutation (quiz_session rnds db cid [])
                              (map q_id (quiz_candidates cid db))).
  { apply (@quiz_session_from rnds db cid []); [exact Hids | constructor | |].
    - intros i [].
    - rewrite length_map. cbn [length]. lia. }
  split; [exact Hperm|].
  eapply Permutation_NoDup; [apply Permutation_sym, Hperm | exact Hids].
Qed.

Lemma quiz_session_complete_witness :
  Permutation
    (quiz_session [5; 3; 8; 1; 0; 0; 7; 7; 7; 2; 9; 4; 4; 4]%nat sample_db 0 [])
    (map q_id (quiz_candidates 0 sample_db)).
Proof.
  assert (Hids : NoDup (map q_id (quiz_candidates 0 sample_db)))
    by apply wf_sample_db.
  assert (Hlen : (length (quiz_candidates 0 sample_db)
                  <= length [5; 3; 8; 1; 0; 0; 7; 7; 7; 2; 9; 4; 4; 4]%nat)%nat)
    by (apply Nat.leb_le; reflexivity).
  exact (proj1 (@quiz_session_complete
                  [5; 3; 8; 1; 0; 0; 7; 7; 7; 2; 9; 4; 4; 4]%nat sample_db 0
                  Hids Hlen)).
Defined.

(** X16.  The end of the quiz is decided by counting, so it can come too
    early: when the previous questions are as many as the candidates but
    include an id that is no candidate's (a question of another category,
    say), then, the candidates' ids being distinct, the response is
    [{success: true}] without a question although some candidate has not
    been asked. *)
Theorem quiz_ends_early (rnd : nat) (db : DB) (page : option Z)
    (previous : list Z) (cid : Z) (foreign : Z) :
  let candidates := quiz_candidates cid db in
  NoDup (map q_id candidates) ->
  length candidates = length previous ->
  In foreign previous ->
  ~ In foreign (map q_id candidates) ->
  post_random_quiz_question rnd db (quiz_request page previous cid)
  = Return (JDict [ ("success", JBool true) ])
  /\ exists q, In q candidates /\ ~ In (q_id q) previous.
Proof.
  intros candidates Hids Hlen Hin Hforeign.
  rewrite post_random_quiz_question_eq. fold candidates.
  rewrite Hlen, Nat.eqb_refl. split; [reflexivity|].
  destruct (filter (fun q => negb (py_in (q_id q) previous)) candidates)
    as [|q l] eqn:Hunused.
  - exfalso. pose proof (proj1 (unused_nil _ _) Hunused) as Hall.
    assert (Hback : incl (map q_id candidates) previous).
    { intros i Hi. apply in_map_iff in Hi. destruct Hi as (q & <- & Hq). auto. }
    apply Hforeign.
    assert (Hle : (length previous <= length (map q_id candidates))%nat)
      by (rewrite length_map; lia).
    exact (NoDup_length_incl Hids Hle Hback foreign Hin).
  - assert (Hq : In q (q :: l)) by now left.
    rewrite <- Hunused in Hq. apply filter_In in Hq. destruct Hq as [Hcand Hnot].
    apply negb_true_iff, py_in_false in Hnot. eauto.
Qed.

Lemma quiz_ends_early_witness :
  post_random_quiz_question 0 sample_db
    (quiz_request None [1; 2; 3; 4; 5; 6; 7; 8; 9; 10; 11; 99] 1)
  = Return (JDict [ ("success", JBool true) ])
  /\ exists q, In q (quiz_candidates 1 sample_db)
               /\ ~ In (q_id q) [1; 2; 3; 4; 5; 6; 7; 8; 9; 10; 11; 99].
Proof.
  assert (Hids : NoDup (map q_id (quiz_candidates 1 sample_db)))
    by apply wf_sample_db.
  apply (@quiz_ends_early 0 sample_db None
           [1; 2; 3; 4; 5; 6; 7; 8; 9; 10; 11; 99] 1 99 Hids eq_refl).
  - cbn. intuition auto.
  - cbn. intuition discriminate.
Defined.

(** ** Search terms made of percent signs *)

Lemma lower_percents n : lower (percents n) = percents n.
Proof. induction n as [|n IH]; simpl; [reflexivity|]. now rewrite IH. Qed.

Lemma like_percents backslash_escape n s :
  like backslash_escape (percents n ++ "%") s = true.
Proof.
  induction n as [|n IH].
  - apply like_percent_all.
  - change (percents (S n) ++ "%")%string with (String "%" (percents n ++ "%")%string).
    apply like_percent. exists EmptyString, s. split; [reflexivity|exact IH].
Qed.

Lemma percents_not_empty n : (0 < n)%nat -> percents n <> EmptyString.
Proof. destruct n; [lia|discriminate]. Qed.

(** X17.  A search term made of percent signs only selects every
    question, under either dialect of the pattern matcher and whatever the
    database does with inserts: on a store with questions the search
    returns the requested page of all of them, and it answers 404 only on a
    store without questions. *)
Theorem search_percent_signs (backslash_escape : bool)
    (insert : string -> string -> Z -> Z -> DB -> option Z * Z) (db : DB)
    (page : option Z) (n : nat) :
  (0 < n)%nat ->
  let request := search_request page (percents n) in
  Question_query_filter_ilike backslash_escape ("%" ++ percents n ++ "%") db
  = questions db
  /\ post_question (mkStorage (ilike backslash_escape) insert) db request
     = match questions db with
       | [] => (Abort 404, db)
       | _ :: _ =>
           (Return (JDict [ ("success", JBool true);
                            ("questions", JList (paginate request (questions db)));
                            ("total_questions",
                             JInt (Z.of_nat (length (paginate request
                                                       (questions db))))) ]),
            db)
       end.
Proof.
  intros Hn request.
  assert (Hall : Question_query_filter_ilike backslash_escape
                   ("%" ++ percents n ++ "%") db = questions db).
  { unfold Question_query_filter_ilike. apply filter_all. intros q _.
    unfold ilike. rewrite !lower_append, lower_percents.
    change (lower "%") with "%"%string.
    change ("%" ++ percents n ++ "%")%string
      with (String "%" (percents n ++ "%")%string).
    apply like_percent. exists EmptyString, (lower (q_question q)).
    split; [reflexivity|apply like_percents]. }
  split; [exact Hall|].
  subst request. unfold post_question, search_request, Question_query_filter.
  cbn [get_json searchTerm truthy ilike_op].
  pose proof (percents_not_empty Hn) as Hne. apply String.eqb_neq in Hne.
  rewrite Hne. cbn [negb].
  unfold Question_query_filter_ilike in Hall. rewrite Hall.
  destruct (questions db); reflexivity.
Qed.

Lemma search_percent_signs_witness :
  Question_query_filter_ilike true "%%%%" sample_db = questions sample_db.
Proof.
  assert (H2 : (0 < 2)%nat) by (apply Nat.ltb_lt; reflexivity).
  exact (proj1 (@search_percent_signs true (insert_op (sequence_storage true))
                  sample_db None 2 H2)).
Defined.
